(** * Personal Expense Tracker: a shallow embedding and its properties

    The repository holds two variants of one program:

    - [personal_expense_tracker.py], the interactive tracker (module
      [Tracker] below): an in-memory list of records with lowercase keys,
      validated on entry and on load, written back after every change;
    - the pandas-based tracker (module [Enhanced] below): functions that
      re-read [expenses.json] on every call and address records by a
      0-based index.

    Modelling conventions.

    - A Python [str] is a [string] of bytes; the character classes of
      [str.strip], [str.lower], [float] and [strptime] are modelled on the
      ASCII range (non-ASCII whitespace, digits and case pairs are outside
      the model).
    - A Python [float] is a binary64 number, [PrimFloat.float]; the [int]
      [0] that starts a [sum] or a [dict.get(k, 0)] is the float [0], as
      Python converts it before adding.
    - The data file is modelled by what [json.load] makes of it: absent,
      not decodable, or a JSON value.  [json.dump] followed by [json.load]
      is the identity on values built from lists, dicts, strings and
      floats, which this representation builds in.
    - An I/O failure while writing is outside the model: [save_expenses]
      always writes.
    - [float(str)], [float(int)] and [round(x, 2)] are the correctly
      rounded conversions of CPython, written out on binary64 in module
      [PyFloat]; [sum] adds from left to right, as CPython does up to
      version 3.11 (later versions carry a correction term, to the same
      result whenever no addition rounds). *)

From Stdlib Require Import ZArith List Bool Ascii String Floats Lia.
From Stdlib Require Import Sorting.Sorted Sorting.Permutation.
Import ListNotations.

Set Warnings "-register-all".

Local Open Scope string_scope.
Local Open Scope list_scope.
Local Open Scope Z_scope.

(** ** Text primitives of the Python runtime *)

Module Text.

Definition code (c : ascii) : Z := Z.of_N (N_of_ascii c).

(** [str.isspace] on the ASCII range: TAB..CR, FS..US and the space. *)
Definition is_space (c : ascii) : bool :=
  let n := code c in
  ((9 <=? n) && (n <=? 13)) || ((28 <=? n) && (n <=? 32)).

(** The whitespace [float] removes around a literal: TAB..CR and the
    space. *)
Definition is_c_space (c : ascii) : bool :=
  let n := code c in
  ((9 <=? n) && (n <=? 13)) || (n =? 32).

Definition is_digit (c : ascii) : bool :=
  let n := code c in (48 <=? n) && (n <=? 57).

Definition digit_val (c : ascii) : Z := code c - 48.

Definition is_nil {A} (l : list A) : bool :=
  match l with [] => true | _ => false end.

Fixpoint lstrip_by (sp : ascii -> bool) (s : list ascii) : list ascii :=
  match s with
  | c :: t => if sp c then lstrip_by sp t else s
  | [] => []
  end.

Fixpoint rstrip_by (sp : ascii -> bool) (s : list ascii) : list ascii :=
  match s with
  | c :: t =>
      let t' := rstrip_by sp t in
      if sp c && is_nil t' then [] else c :: t'
  | [] => []
  end.

Definition strip_by (sp : ascii -> bool) (s : list ascii) : list ascii :=
  rstrip_by sp (lstrip_by sp s).

(** [str.strip()] *)
Definition strip (s : string) : string :=
  string_of_list_ascii (strip_by is_space (list_ascii_of_string s)).

Definition lower_char (c : ascii) : ascii :=
  let n := code c in
  if (65 <=? n) && (n <=? 90) then ascii_of_N (Z.to_N (n + 32)) else c.

(** [str.lower()] *)
Fixpoint lower (s : string) : string :=
  match s with
  | EmptyString => EmptyString
  | String c t => String (lower_char c) (lower t)
  end.

(** [s[:n]] *)
Definition prefix (n : nat) (s : string) : string := substring 0 n s.

Fixpoint span (p : ascii -> bool) (s : list ascii) : list ascii * list ascii :=
  match s with
  | c :: t => if p c then let (a, b) := span p t in (c :: a, b) else ([], s)
  | [] => ([], [])
  end.

End Text.

(** ** Which strings [float(str)] accepts *)

Module FloatSyntax.
Import Text.

Definition is_sign (c : ascii) : bool :=
  Ascii.eqb c "+" || Ascii.eqb c "-".

Definition drop_sign (s : list ascii) : list ascii :=
  match s with
  | c :: t => if is_sign c then t else s
  | [] => []
  end.

(** Underscores may only stand between two digits; they are removed
    before the literal is read. *)
Fixpoint strip_underscores (prev : option ascii) (s : list ascii)
  : option (list ascii) :=
  match s with
  | [] =>
      match prev with
      | Some p => if Ascii.eqb p "_" then None else Some []
      | None => Some []
      end
  | c :: t =>
      let prev_digit := match prev with Some p => is_digit p | None => false end in
      let prev_under := match prev with Some p => Ascii.eqb p "_" | None => false end in
      if Ascii.eqb c "_" then
        if prev_digit then strip_underscores (Some c) t else None
      else if prev_under && negb (is_digit c) then None
      else option_map (cons c) (strip_underscores (Some c) t)
  end.

Definition exponent_ok (s : list ascii) : bool :=
  match s with
  | [] => true
  | e :: r =>
      if Ascii.eqb e "e" || Ascii.eqb e "E" then
        let (ds, rest) := span is_digit (drop_sign r) in
        negb (is_nil ds) && is_nil rest
      else false
  end.

(** A decimal literal: digits, an optional point and digits, with a digit
    somewhere, then an optional exponent. *)
Definition decimal_ok (s : list ascii) : bool :=
  let (ip, r1) := span is_digit (drop_sign s) in
  let (fp, r2) :=
    match r1 with
    | c :: r => if Ascii.eqb c "." then span is_digit r else ([], r1)
    | [] => ([], [])
    end in
  negb (is_nil ip && is_nil fp) && exponent_ok r2.

Definition inf_nan_ok (s : list ascii) : bool :=
  let w := lower (string_of_list_ascii (drop_sign s)) in
  (w =? "inf")%string || (w =? "infinity")%string || (w =? "nan")%string.

(** [float(s)] does not raise [ValueError]. *)
Definition accepts (s : string) : bool :=
  let t := strip_by is_c_space (list_ascii_of_string s) in
  match strip_underscores None t with
  | Some u => decimal_ok u || inf_nan_ok t
  | None => false
  end.

End FloatSyntax.

(** ** [datetime.strptime(s, "%Y-%m-%d")] *)

Module Strptime.
Import Text.

(** The format compiles to the regular expression
    [(\d\d\d\d)-(1[0-2]|0[1-9]|[1-9])-(3[0-1]|[1-2]\d|0[1-9]|[1-9]| [1-9])];
    a group is matched by its first alternative that lets the rest of the
    expression match.  Each function below lists, in that order, the ways
    one group matches a prefix of the text, with the number read and the
    text left. *)

Definition in_range (lo hi : Z) (c : ascii) : bool :=
  let n := code c in (lo <=? n) && (n <=? hi).

(** Two characters [a b] with [a] in [alo..ahi] and [b] in [blo..bhi]. *)
Definition two (alo ahi blo bhi : Z) (s : list ascii) : list (Z * list ascii) :=
  match s with
  | a :: b :: r =>
      if in_range alo ahi a && in_range blo bhi b
      then [(10 * digit_val a + digit_val b, r)] else []
  | _ => []
  end.

(** One character in ['1'..'9']. *)
Definition one (s : list ascii) : list (Z * list ascii) :=
  match s with
  | a :: r => if in_range 49 57 a then [(digit_val a, r)] else []
  | [] => []
  end.

(** A space, then one character in ['1'..'9']. *)
Definition padded (s : list ascii) : list (Z * list ascii) :=
  match s with
  | a :: r => if Ascii.eqb a " " then one r else []
  | [] => []
  end.

Definition group_Y (s : list ascii) : list (Z * list ascii) :=
  match s with
  | a :: b :: c :: d :: r =>
      if is_digit a && is_digit b && is_digit c && is_digit d
      then [(1000 * digit_val a + 100 * digit_val b
             + 10 * digit_val c + digit_val d, r)]
      else []
  | _ => []
  end.

Definition group_m (s : list ascii) : list (Z * list ascii) :=
  two 49 49 48 50 s ++ two 48 48 49 57 s ++ one s.

Definition group_d (s : list ascii) : list (Z * list ascii) :=
  two 51 51 48 49 s ++ two 49 50 48 57 s ++ two 48 48 49 57 s
  ++ one s ++ padded s.

Definition dash (s : list ascii) : list (list ascii) :=
  match s with
  | c :: r => if Ascii.eqb c "-" then [r] else []
  | [] => []
  end.

(** All the matches of the expression at the start of [s], the preferred
    one first. *)
Definition matches (s : list ascii) : list (Z * Z * Z * list ascii) :=
  flat_map (fun '(y, r1) =>
    flat_map (fun r2 =>
      flat_map (fun '(m, r3) =>
        flat_map (fun r4 =>
          map (fun '(d, r5) => (y, m, d, r5)) (group_d r4))
        (dash r3))
      (group_m r2))
    (dash r1))
  (group_Y s).

Definition is_leap (y : Z) : bool :=
  (y mod 4 =? 0) && (negb (y mod 100 =? 0) || (y mod 400 =? 0)).

Definition days_in_month (y m : Z) : Z :=
  if m =? 2 then (if is_leap y then 29 else 28)
  else if (m =? 4) || (m =? 6) || (m =? 9) || (m =? 11) then 30
  else 31.

(** The check of the [date] constructor: [MINYEAR <= year <= MAXYEAR],
    a month of the year and a day of that month. *)
Definition date_ok (y m d : Z) : bool :=
  (1 <=? y) && (y <=? 9999) && (1 <=? m) && (m <=? 12)
  && (1 <=? d) && (d <=? days_in_month y m).

(** What [strptime] makes of the matches: it takes the first, and raises
    [ValueError] when there is none, when text is left after it, or when
    there is no such day. *)
Definition outcome (ms : list (Z * Z * Z * list ascii)) : option (Z * Z * Z) :=
  match ms with
  | (y, m, d, rest) :: _ =>
      if is_nil rest && date_ok y m d then Some (y, m, d) else None
  | [] => None
  end.

(** [Some (y, m, d)] when [strptime] returns, [None] when it raises
    [ValueError]. *)
Definition strptime (s : string) : option (Z * Z * Z) :=
  outcome (matches (list_ascii_of_string s)).

End Strptime.

(** ** [int(str)] in base 10 *)

Module IntSyntax.
Import Text.

Definition value (ds : list ascii) : Z :=
  fold_left (fun acc c => 10 * acc + digit_val c) ds 0.

(** [Some n] when [int(s)] returns [n], [None] when it raises
    [ValueError]. *)
Definition int_of_string (s : string) : option Z :=
  let t := strip_by is_c_space (list_ascii_of_string s) in
  let negative := match t with c :: _ => Ascii.eqb c "-" | [] => false end in
  match FloatSyntax.strip_underscores None (FloatSyntax.drop_sign t) with
  | Some ds =>
      if negb (is_nil ds) && forallb is_digit ds
      then Some (if negative then - value ds else value ds)
      else None
  | None => None
  end.

End IntSyntax.

(** ** Binary64 conversions of the Python runtime *)

Module PyFloat.
Import Text.

(** The binary64 number nearest to [num / den], ties to even, with the
    sign [neg]; for [0 <= num] and [0 < den]. *)
Definition nearest (neg : bool) (num den : Z) : float :=
  if num =? 0 then SF2Prim (S754_zero neg)
  else
    let s := Z.max 0 (64 + Z.log2 den - Z.log2 num) in
    let (q, r) := Z.div_eucl (num * 2 ^ s) den in
    let loc :=
      if r =? 0 then loc_Exact else loc_Inexact (Z.compare (2 * r) den) in
    SF2Prim (binary_round_aux prec emax neg q (- s) loc).

(** [float(n)] for an [int]; [None] for [OverflowError]. *)
Definition of_int (n : Z) : option float :=
  let x := nearest (n <? 0) (Z.abs n) 1 in
  if PrimFloat.is_infinity x then None else Some x.

(** The integer nearest to [num / den], ties to even. *)
Definition round_half_even (num den : Z) : Z :=
  let (q, r) := Z.div_eucl num den in
  match Z.compare (2 * r) den with
  | Lt => q
  | Eq => if Z.even q then q else q + 1
  | Gt => q + 1
  end.

(** [round(x, 2)]: the number of hundredths nearest to [x], then the
    binary64 number nearest to that many hundredths. *)
Definition round2 (x : float) : float :=
  match Prim2SF x with
  | S754_finite s m e =>
      let n := if 0 <=? e then Zpos m * 2 ^ e * 100
               else round_half_even (Zpos m * 100) (2 ^ (- e)) in
      nearest s n 100
  | _ => x
  end.

Definition is_minus (s : list ascii) : bool :=
  match s with
  | c :: _ => Ascii.eqb c "-"
  | [] => false
  end.

(** The exponent an exponent part writes; [0] when there is none. *)
Definition exponent_of (s : list ascii) : Z :=
  match s with
  | _ :: r =>
      let n := IntSyntax.value (fst (span is_digit (FloatSyntax.drop_sign r))) in
      if is_minus r then - n else n
  | [] => 0
  end.

(** [float(s)] for a string that [float] accepts. *)
Definition of_literal (s : string) : float :=
  let t := strip_by is_c_space (list_ascii_of_string s) in
  let neg := is_minus t in
  let w := lower (string_of_list_ascii (FloatSyntax.drop_sign t)) in
  if (w =? "nan")%string then nan
  else if (w =? "inf")%string || (w =? "infinity")%string
  then (if neg then neg_infinity else infinity)
  else
    match FloatSyntax.strip_underscores None t with
    | Some u =>
        let (ip, r1) := span is_digit (FloatSyntax.drop_sign u) in
        let (fp, r2) :=
          match r1 with
          | c :: r => if Ascii.eqb c "." then span is_digit r else ([], r1)
          | [] => ([], [])
          end in
        let mant := IntSyntax.value (ip ++ fp) in
        let e10 := exponent_of r2 - Z.of_nat (List.length fp) in
        if 0 <=? e10 then nearest neg (mant * 10 ^ e10) 1
        else nearest neg mant (10 ^ (- e10))
    | None => nan
    end.

(** [float(s)] for a [str]; [None] for [ValueError]. *)
Definition of_string (s : string) : option float :=
  if FloatSyntax.accepts s then Some (of_literal s) else None.

End PyFloat.

(** ** The data file *)

(** What [json.load] returns: [None], a [bool], an [int], a [float], a
    [str], a [list] or a [dict] (its items in insertion order, the keys
    distinct). *)
Inductive json : Type :=
| JNull
| JBool (b : bool)
| JInt (n : Z)
| JFloat (x : float)
| JStr (s : string)
| JList (items : list json)
| JDict (items : list (string * json)).

(** [expenses.json]: missing, not decodable by [json.load], or holding a
    JSON value. *)
Inductive file : Type :=
| Absent
| Corrupt
| Content (v : json).

(** [d.get(k)], with [None] for a missing key. *)
Fixpoint dict_get (k : string) (d : list (string * json)) : json :=
  match d with
  | (k', v) :: rest => if (k' =? k)%string then v else dict_get k rest
  | [] => JNull
  end.

(** [l.pop(i)]: the list without its element at [i], counted from the end
    when [i] is negative; [None] for [IndexError]. *)
Definition pop {A} (l : list A) (i : Z) : option (A * list A) :=
  let n := Z.of_nat (List.length l) in
  let j := if i <? 0 then i + n else i in
  if (0 <=? j) && (j <? n) then
    match nth_error l (Z.to_nat j) with
    | Some x => Some (x, firstn (Z.to_nat j) l ++ skipn (S (Z.to_nat j)) l)
    | None => None
    end
  else None.

(** [l[i] = x] for [0 <= i < len(l)]. *)
Fixpoint set_nth {A} (l : list A) (i : nat) (x : A) : list A :=
  match l, i with
  | _ :: t, O => x :: t
  | h :: t, S j => h :: set_nth t j x
  | [], _ => []
  end.

Inductive result (E A : Type) : Type :=
| Ok (a : A)
| Err (e : E).
Arguments Ok {E A} a.
Arguments Err {E A} e.

(** ** Grouped sums *)

(** The summaries all run the same loop,
    [d[k] = d.get(k, 0) + e["amount"]], over a [dict] keyed by a string
    taken from the record.  Python's [+] and [sum] work on any number
    type; the loop is written once here over a number type [num] and used
    by the tracker at [float]. *)

Module Grouping.

Section Numbers.
Context {R num : Type}.
Variable add : num -> num -> num.
Variable zero : num.
Variable amount : R -> num.

(** A [dict] from strings to numbers, its items in insertion order. *)
Definition dict : Type := list (string * num).

(** [d.get(k, default)] *)
Fixpoint get_or (d : dict) (k : string) (default : num) : num :=
  match d with
  | (k', v) :: rest => if (k' =? k)%string then v else get_or rest k default
  | [] => default
  end.

(** [d[k] = v]: a key already present keeps its place. *)
Fixpoint set_item (d : dict) (k : string) (v : num) : dict :=
  match d with
  | (k', v') :: rest =>
      if (k' =? k)%string then (k, v) :: rest else (k', v') :: set_item rest k v
  | [] => [(k, v)]
  end.

Definition keys (d : dict) : list string := map fst d.
Definition values (d : dict) : list num := map snd d.

(** [d[key(e)] = d.get(key(e), 0) + e["amount"]] *)
Definition step (key : R -> string) (d : dict) (e : R) : dict :=
  set_item d (key e) (add (get_or d (key e) zero) (amount e)).

(** [for e in expenses: d[key(e)] = d.get(key(e), 0) + e["amount"]] *)
Definition accumulate_from (key : R -> string) (expenses : list R) (d : dict)
  : dict :=
  fold_left (step key) expenses d.

Definition accumulate (key : R -> string) (expenses : list R) : dict :=
  accumulate_from key expenses [].

(** [sum(xs)]: the additions from left to right, starting at [0]. *)
Definition py_sum (xs : list num) : num := fold_left add xs zero.

Fixpoint insert_key (k : string) (l : list string) : list string :=
  match l with
  | h :: t => if String.leb k h then k :: l else h :: insert_key k t
  | [] => [k]
  end.

(** [sorted(ks)] for strings, compared character by character. *)
Definition sorted (ks : list string) : list string :=
  fold_right insert_key [] ks.

(** [for k in sorted(d.keys()): ... d[k]]: the items by ascending key
    (every [k] is a key of [d], so [d[k]] is [d.get(k, 0)]). *)
Definition by_key (d : dict) : list (string * num) :=
  map (fun k => (k, get_or d k zero)) (sorted (keys d)).

End Numbers.

End Grouping.

(** ** The interactive tracker ([personal_expense_tracker.py]) *)

Module Tracker.
Import Text.

(** A record of the in-memory list: a [dict] with the keys ["amount"],
    ["category"] and ["date"]. *)
Record expense : Type := mkExpense {
  amount : float;
  category : string;
  date : string
}.

(** *** [view_summary] and [show_visual_summary] *)

(** What each choice of the summary menu computes from the list.  (With an
    empty list [view_summary] prints "No expense records found." and
    computes nothing.) *)

Definition month_of (e : expense) : string := prefix 7 (date e).

(** Choice 1: [sum(e["amount"] for e in expenses
    if e["category"].lower() == category.lower())]. *)
Definition category_total (expenses : list expense) (category0 : string)
  : float :=
  Grouping.py_sum PrimFloat.add 0%float
    (map amount
       (filter (fun e => (lower (category e) =? lower category0)%string)
          expenses)).


(** Choice 3: the daily totals, by ascending date string. *)
Definition daily_summary (expenses : list expense) : list (string * float) :=
  Grouping.by_key 0%float
    (Grouping.accumulate PrimFloat.add 0%float amount date expenses).

(** Choice 4: the monthly totals, by ascending [YYYY-MM] string. *)
Definition monthly_summary (expenses : list expense) : list (string * float) :=
  Grouping.by_key 0%float
    (Grouping.accumulate PrimFloat.add 0%float amount month_of expenses).

(** The pie chart's [categories] dict, in insertion order. *)
Definition category_totals (expenses : list expense) : list (string * float) :=
  Grouping.accumulate PrimFloat.add 0%float amount category expenses.

(** [show_visual_summary], choice 1: [labels = list(categories.keys())]
    and [sizes = list(categories.values())]. *)
Definition pie_labels (expenses : list expense) : list string :=
  Grouping.keys (category_totals expenses).

Definition pie_sizes (expenses : list expense) : list float :=
  Grouping.values (category_totals expenses).

(** [show_visual_summary], choice 2: [months = sorted(monthly.keys())] and
    [totals = [monthly[m] for m in months]]. *)
Definition bar_months (expenses : list expense) : list string :=
  Grouping.sorted
    (Grouping.keys
       (Grouping.accumulate PrimFloat.add 0%float amount month_of expenses)).

Definition bar_totals (expenses : list expense) : list float :=
  map (fun m =>
         Grouping.get_or
           (Grouping.accumulate PrimFloat.add 0%float amount month_of expenses)
           m 0%float)
      (bar_months expenses).

(** *** Loading, saving and the three updates *)

(** Why [add_expense] gives up: the message it prints is
    "Invalid amount. Please enter a numeric value.",
    "Category cannot be empty." or
    "Invalid date format. Use YYYY-MM-DD.". *)
Inductive rejection : Type :=
| InvalidAmount
| InvalidCategory
| InvalidDate.

(** The list in memory, the data file, and the arguments
    [save_expenses] has been called with so far, oldest first. *)
Record store : Type := mkStore {
  expenses : list expense;
  disk : file;
  saved : list (list expense)
}.

(** [float(v)] for a value read from the file; [None] when it raises. *)
Definition to_float (v : json) : option float :=
  match v with
  | JFloat x => Some x
  | JInt n => PyFloat.of_int n
  | JBool b => Some (if b then 1%float else 0%float)
  | JStr s => PyFloat.of_string s
  | JNull | JList _ | JDict _ => None
  end.

(** The body of the loop of [load_expenses]: [None] for [continue]. *)
Definition clean_entry (e : json) : option expense :=
  match e with
  | JDict d =>
      match to_float (dict_get "amount" d) with
      | None => None
      | Some a =>
          match dict_get "category" d with
          | JStr c =>
              if (strip c =? "")%string then None
              else
                match dict_get "date" d with
                | JStr dt =>
                    match Strptime.strptime dt with
                    | Some _ => Some (mkExpense a (strip c) dt)
                    | None => None
                    end
                | _ => None
                end
          | _ => None
          end
      end
  | _ => None
  end.

Fixpoint load_loop (data : list json) (cleaned : list expense)
  : list expense :=
  match data with
  | e :: rest =>
      match clean_entry e with
      | Some r => load_loop rest (cleaned ++ [r])
      | None => load_loop rest cleaned
      end
  | [] => cleaned
  end.

Definition load_expenses (f : file) : list expense :=
  match f with
  | Absent => []
  | Corrupt => []
  | Content (JList data) => load_loop data []
  | Content _ => []
  end.

Definition to_json (r : expense) : json :=
  JDict [("amount", JFloat (amount r));
         ("category", JStr (category r));
         ("date", JStr (date r))].

(** What [json.dump(expenses, f)] leaves in the file. *)
Definition dump (l : list expense) : file :=
  Content (JList (map to_json l)).

Definition save_expenses (l : list expense) (st : store) : store :=
  mkStore (expenses st) (dump l) (saved st ++ [l]).

(** [raw = input(prompt).strip()], then [float(raw)]; [None] for
    [ValueError]. *)
Definition prompt_float (answer : string) : option float :=
  let raw := strip answer in
  if (raw =? "")%string then None else PyFloat.of_string raw.

(** [add_expense] up to the line that builds [record]: the answers to its
    prompts are [a_amount], [a_category], [a_today] and, when asked,
    [a_date]; [today] is [datetime.today().strftime("%Y-%m-%d")]. *)
Definition read_expense (today a_amount a_category a_today a_date : string)
  : result rejection expense :=
  match prompt_float a_amount with
  | None => Err InvalidAmount
  | Some x =>
      let category0 := strip a_category in
      if (category0 =? "")%string then Err InvalidCategory
      else
        let use_today := lower (strip a_today) in
        if (use_today =? "y")%string || (use_today =? "")%string then
          Ok (mkExpense (PyFloat.round2 x) category0 today)
        else
          let date_str := strip a_date in
          match Strptime.strptime date_str with
          | Some _ => Ok (mkExpense (PyFloat.round2 x) category0 date_str)
          | None => Err InvalidDate
          end
  end.


Definition add_expense (today a_amount a_category a_today a_date : string)
  (st : store) : store :=
  match read_expense today a_amount a_category a_today a_date with
  | Ok record =>
      let l := expenses st ++ [record] in
      save_expenses l (mkStore l (disk st) (saved st))
  | Err _ => st
  end.

(** [delete_expense]: [a_index] answers "Enter the number of the expense
    to delete (0 to cancel)". *)
Definition delete_expense (a_index : string) (st : store) : store :=
  if is_nil (expenses st) then st
  else
    match IntSyntax.int_of_string (strip a_index) with
    | None => st
    | Some idx =>
        if idx =? 0 then st
        else if (1 <=? idx) && (idx <=? Z.of_nat (List.length (expenses st)))
        then
          match pop (expenses st) (idx - 1) with
          | Some (_, l) => save_expenses l (mkStore l (disk st) (saved st))
          | None => st
          end
        else st
    end.

(** The three optional replacements [edit_expense] makes in the chosen
    record. *)
Definition edited (exp : expense) (a_amount a_category a_date : string)
  : expense :=
  let new_amount := strip a_amount in
  let amount1 :=
    if (new_amount =? "")%string then amount exp
    else match PyFloat.of_string new_amount with
         | Some x => PyFloat.round2 x
         | None => amount exp
         end in
  let new_cat := strip a_category in
  let category1 := if (new_cat =? "")%string then category exp else new_cat in
  let new_date := strip a_date in
  let date1 :=
    if (new_date =? "")%string then date exp
    else match Strptime.strptime new_date with
         | Some _ => new_date
         | None => date exp
         end in
  mkExpense amount1 category1 date1.

Definition edit_expense (a_index a_amount a_category a_date : string)
  (st : store) : store :=
  if is_nil (expenses st) then st
  else
    match IntSyntax.int_of_string (strip a_index) with
    | None => st
    | Some idx =>
        if idx =? 0 then st
        else if negb ((1 <=? idx) && (idx <=? Z.of_nat (List.length (expenses st))))
        then st
        else
          match nth_error (expenses st) (Z.to_nat (idx - 1)) with
          | Some exp =>
              let l := set_nth (expenses st) (Z.to_nat (idx - 1))
                         (edited exp a_amount a_category a_date) in
              save_expenses l (mkStore l (disk st) (saved st))
          | None => st
          end
    end.

(** [main] starts from [load_expenses()] and has saved nothing yet. *)
Definition start (f : file) : store :=
  mkStore (load_expenses f) f [].

(** One turn of the menu that can change the store. *)
Inductive command : Type :=
| Add (today a_amount a_category a_today a_date : string)
| Edit (a_index a_amount a_category a_date : string)
| Delete (a_index : string).

Definition run (c : command) (st : store) : store :=
  match c with
  | Add t a c0 u d => add_expense t a c0 u d st
  | Edit i a c0 d => edit_expense i a c0 d st
  | Delete i => delete_expense i st
  end.

Definition run_all (cs : list command) (st : store) : store :=
  fold_left (fun s c => run c s) cs st.

End Tracker.

(** ** The pandas-based tracker *)

(** Its functions keep no list in memory: each one reads the data file,
    works on what it read and writes the file back.  A record is the
    [dict] built by [add_expense] and [edit_expense]; an entry of the file
    is whatever JSON value the file's list holds. *)

Module Enhanced.

Definition load_expenses (f : file) : list json :=
  match f with
  | Absent => []
  | Corrupt => []
  | Content (JList data) => data
  | Content _ => []
  end.

Definition save_expenses (l : list json) : file := Content (JList l).

(** [{"Date": date, "Category": category, "Amount": float(amount),
    "Description": description}], for an [amount] that is a [float]. *)
Definition record (date category : string) (amount : float)
  (description : string) : json :=
  JDict [("Date", JStr date); ("Category", JStr category);
         ("Amount", JFloat amount); ("Description", JStr description)].

Definition sample : list json :=
  [record "2025-10-01" "Food" 200%float "Breakfast";
   record "2025-10-03" "Transport" 120%float "Bus ticket";
   record "2025-10-05" "Shopping" 500%float "Groceries";
   record "2025-09-28" "Bills" 1500%float "Electricity bill"].

Definition ensure_sample_data (f : file) : list json * file :=
  let expenses := load_expenses f in
  if Text.is_nil expenses then (sample, save_expenses sample)
  else (expenses, f).

Definition add_expense (date category : string) (amount : float)
  (description : string) (f : file) : file :=
  save_expenses (load_expenses f ++ [record date category amount description]).

Definition in_bounds (index : Z) (l : list json) : bool :=
  (0 <=? index) && (index <? Z.of_nat (List.length l)).

Definition find_expense_index_by_rowid (rowid : Z) (f : file) : option Z :=
  if in_bounds rowid (load_expenses f) then Some rowid else None.

Definition edit_expense (index : Z) (date category : string) (amount : float)
  (description : string) (f : file) : bool * file :=
  let expenses := load_expenses f in
  if in_bounds index expenses then
    (true,
     save_expenses
       (set_nth expenses (Z.to_nat index)
          (record date category amount description)))
  else (false, f).

Definition delete_expense (index : Z) (f : file) : bool * file :=
  let expenses := load_expenses f in
  if in_bounds index expenses then
    match pop expenses index with
    | Some (_, l) => (true, save_expenses l)
    | None => (false, f)
    end
  else (false, f).

End Enhanced.

(** ** Notions the properties are stated with *)

Module Spec.
Import Text.

(** Two characters that are equal, or the two cases of one letter. *)
Definition same_letterb (a b : ascii) : bool :=
  Ascii.eqb a b
  || (Strptime.in_range 65 90 a && (code b =? code a + 32))
  || (Strptime.in_range 65 90 b && (code a =? code b + 32)).

(** Equality of two strings up to the case of their letters. *)
Fixpoint caseless_eqb (s t : string) : bool :=
  match s, t with
  | EmptyString, EmptyString => true
  | String a s', String b t' => same_letterb a b && caseless_eqb s' t'
  | _, _ => false
  end.

(** The shape [YYYY-MM-DD]: ten characters, digits around two dashes. *)
Definition iso_shaped (s : string) : bool :=
  match list_ascii_of_string s with
  | [y1; y2; y3; y4; h1; m1; m2; h2; d1; d2] =>
      is_digit y1 && is_digit y2 && is_digit y3 && is_digit y4
      && Ascii.eqb h1 "-" && is_digit m1 && is_digit m2
      && Ascii.eqb h2 "-" && is_digit d1 && is_digit d2
  | _ => false
  end.

Definition number (ds : list ascii) : Z := IntSyntax.value ds.

(** The year, month and day a string of that shape writes. *)
Definition iso_fields (s : string) : Z * Z * Z :=
  let l := list_ascii_of_string s in
  (number (firstn 4 l), number (firstn 2 (skipn 5 l)),
   number (firstn 2 (skipn 8 l))).


(** One day comes before another: an earlier year, or the same year and
    an earlier month, or the same month and an earlier day. *)
Definition earlier (a b : Z * Z * Z) : Prop :=
  let '(y1, m1, d1) := a in
  let '(y2, m2, d2) := b in
  y1 < y2 \/ (y1 = y2 /\ (m1 < m2 \/ (m1 = m2 /\ d1 < d2))).

(** The index typed at a prompt names a record of a list of [n]: it
    reads as a number from 1 to [n]. *)
Definition names_record (a_index : string) (n : nat) : Prop :=
  exists idx, IntSyntax.int_of_string (Text.strip a_index) = Some idx
              /\ 1 <= idx <= Z.of_nat n.


(** The order of [sorted] on strings, and its strict part. *)
Definition le_string (s t : string) : Prop := String.leb s t = true.
Definition lt_string (s t : string) : Prop := String.ltb s t = true.

(** [k in ks] *)
Definition mem (k : string) (ks : list string) : bool :=
  existsb (fun k' => (k' =? k)%string) ks.

(** The keys of a grouping: each string once, at its first place. *)
Fixpoint first_occurrences (ks : list string) : list string :=
  match ks with
  | k :: rest =>
      k :: filter (fun k' => negb (k' =? k)%string) (first_occurrences rest)
  | [] => []
  end.

(** What the tracker checks of a record before it keeps it, read off a
    record in memory: a category without surrounding whitespace that is
    not empty, and a date [strptime] accepts. *)
Definition checked (e : Tracker.expense) : bool :=
  (strip (Tracker.category e) =? Tracker.category e)%string
  && negb (Tracker.category e =? "")%string
  && match Strptime.strptime (Tracker.date e) with
     | Some _ => true
     | None => false
     end.

Definition good (e : Tracker.expense) : Prop := checked e = true.

(** The list in memory and every list handed to [save_expenses] hold
    checked records only. *)
Definition sound (st : Tracker.store) : Prop :=
  Forall good (Tracker.expenses st)
  /\ Forall (Forall good) (Tracker.saved st).


(** The entries of a file's list the tracker keeps, each as it keeps
    it. *)
Definition kept {A B} (f : A -> option B) (l : list A) : list B :=
  flat_map (fun a => match f a with Some b => [b] | None => [] end) l.


(** The list a file holds, when what it holds is a list. *)
Definition as_list (f : file) : option (list json) :=
  match f with
  | Content (JList data) => Some data
  | _ => None
  end.

(** The clock gave [add_expense] a date, as [strftime] always does. *)
Definition clock_ok (c : Tracker.command) : bool :=
  match c with
  | Tracker.Add today _ _ _ _ =>
      match Strptime.strptime today with
      | Some _ => true
      | None => false
      end
  | _ => true
  end.


End Spec.

(** ** Lists addressed by position *)

Section Positions.
Context {A : Type}.
Implicit Types (l : list A) (x : A) (i q : nat).

Lemma length_set_nth l i x : List.length (set_nth l i x) = List.length l.
Proof.
  revert i; induction l as [|h t IH]; intros [|i]; simpl; auto.
Qed.

Lemma nth_error_set_nth_eq l i x :
  (i < List.length l)%nat -> nth_error (set_nth l i x) i = Some x.
Proof.
  revert i; induction l as [|h t IH]; intros [|i] H; simpl in *;
    try lia; auto.
  apply IH; lia.
Qed.

Lemma nth_error_set_nth_neq l i q x :
  q <> i -> nth_error (set_nth l i x) q = nth_error l q.
Proof.
  revert i q; induction l as [|h t IH]; intros [|i] [|q] H; simpl;
    try congruence; auto.
Qed.

Lemma pop_in_bounds l (p : Z) :
  0 <= p < Z.of_nat (List.length l) ->
  exists x, nth_error l (Z.to_nat p) = Some x
    /\ pop l p = Some (x, firstn (Z.to_nat p) l ++ skipn (S (Z.to_nat p)) l).
Proof.
  intros H. unfold pop.
  destruct (p <? 0) eqn:Hneg; [apply Z.ltb_lt in Hneg; lia|].
  assert (Hb : (0 <=? p) && (p <? Z.of_nat (List.length l)) = true).
  { apply andb_true_intro; split; [apply Z.leb_le | apply Z.ltb_lt]; lia. }
  rewrite Hb.
  destruct (nth_error l (Z.to_nat p)) as [x|] eqn:Hx.
  - exists x; auto.
  - apply nth_error_None in Hx; lia.
Qed.

Lemma length_without l i :
  (i < List.length l)%nat ->
  S (List.length (firstn i l ++ skipn (S i) l)) = List.length l.
Proof.
  intros H. rewrite length_app, length_firstn, length_skipn. lia.
Qed.

Lemma nth_error_without_before l i q :
  (q < i)%nat -> (i < List.length l)%nat ->
  nth_error (firstn i l ++ skipn (S i) l) q = nth_error l q.
Proof.
  intros Hq Hi.
  rewrite nth_error_app1 by (rewrite length_firstn; lia).
  rewrite nth_error_firstn.
  destruct (Nat.ltb_spec q i); [reflexivity | lia].
Qed.

Lemma nth_error_without_after l i q :
  (i <= q)%nat -> (i < List.length l)%nat ->
  nth_error (firstn i l ++ skipn (S i) l) q = nth_error l (S q).
Proof.
  intros Hq Hi.
  rewrite nth_error_app2 by (rewrite length_firstn; lia).
  rewrite length_firstn, nth_error_skipn.
  f_equal; lia.
Qed.

End Positions.

(** ** Editing and deleting by position (pandas variant) *)

Lemma in_bounds_iff (index : Z) (l : list json) :
  Enhanced.in_bounds index l = true <-> 0 <= index < Z.of_nat (List.length l).
Proof.
  unfold Enhanced.in_bounds.
  rewrite andb_true_iff, Z.leb_le, Z.ltb_lt. tauto.
Qed.

Lemma load_save (l : list json) :
  Enhanced.load_expenses (Enhanced.save_expenses l) = l.
Proof. reflexivity. Qed.


(** C4. [delete_expense] at a position [p] inside [[0, len)] returns
    [True]; the list read back is one shorter, holds below [p] what it
    held, and holds at each [q >= p] what position [q + 1] held. *)
Theorem delete_expense_shifts (p : Z) (f : file) :
  0 <= p < Z.of_nat (List.length (Enhanced.load_expenses f)) ->
  let l := Enhanced.load_expenses f in
  exists f',
    Enhanced.delete_expense p f = (true, f')
    /\ S (List.length (Enhanced.load_expenses f')) = List.length l
    /\ (forall q, (q < Z.to_nat p)%nat ->
          nth_error (Enhanced.load_expenses f') q = nth_error l q)
    /\ (forall q, (Z.to_nat p <= q)%nat ->
          nth_error (Enhanced.load_expenses f') q = nth_error l (S q)).
Proof.
  intros Hp l. unfold Enhanced.delete_expense. fold l.
  fold l in Hp. clearbody l.
  assert (Hb : Enhanced.in_bounds p l = true) by now apply in_bounds_iff.
  rewrite Hb.
  destruct (pop_in_bounds l p Hp) as (x & _ & Hpop). rewrite Hpop.
  eexists; split; [reflexivity|].
  rewrite load_save.
  assert (Hi : (Z.to_nat p < List.length l)%nat) by lia.
  repeat split.
  - now apply length_without.
  - intros q Hq. now apply nth_error_without_before.
  - intros q Hq. now apply nth_error_without_after.
Qed.

Lemma delete_expense_shifts_witness :
  let f := Enhanced.save_expenses Enhanced.sample in
  exists f',
    Enhanced.delete_expense 1 f = (true, f')
    /\ Enhanced.load_expenses f'
       = [Enhanced.record "2025-10-01" "Food" 200%float "Breakfast";
          Enhanced.record "2025-10-05" "Shopping" 500%float "Groceries";
          Enhanced.record "2025-09-28" "Bills" 1500%float "Electricity bill"].
Proof.
  intros f.
  destruct (delete_expense_shifts 1 f) as (f' & Hdel & _).
  - simpl. lia.
  - exists f'. split; [exact Hdel|].
    cbv in Hdel. injection Hdel as <-. reflexivity.
Defined.

(** The interactive tracker counts from 1: typing [p + 1] removes
    position [p] of the list in memory and writes what is left. *)
Lemma tracker_delete_expense_shifts (a_index : string) (p : Z)
  (st : Tracker.store) :
  IntSyntax.int_of_string (Text.strip a_index) = Some (p + 1) ->
  0 <= p < Z.of_nat (List.length (Tracker.expenses st)) ->
  let l := Tracker.expenses st in
  let st' := Tracker.delete_expense a_index st in
  Tracker.disk st' = Tracker.dump (Tracker.expenses st')
  /\ S (List.length (Tracker.expenses st')) = List.length l
  /\ (forall q, (q < Z.to_nat p)%nat ->
        nth_error (Tracker.expenses st') q = nth_error l q)
  /\ (forall q, (Z.to_nat p <= q)%nat ->
        nth_error (Tracker.expenses st') q = nth_error l (S q)).
Proof.
  intros Hi Hp l st'. subst st'. unfold Tracker.delete_expense.
  fold l. fold l in Hp. clearbody l.
  assert (N : Text.is_nil l = false).
  { destruct l; [simpl in Hp; lia | reflexivity]. }
  rewrite N, Hi.
  assert (E0 : (p + 1 =? 0) = false) by (apply Z.eqb_neq; lia).
  assert (E1 : (1 <=? p + 1) && (p + 1 <=? Z.of_nat (List.length l)) = true).
  { apply andb_true_intro. split; apply Z.leb_le; lia. }
  rewrite E0, E1. replace (p + 1 - 1) with p by lia.
  destruct (pop_in_bounds l p Hp) as (x & _ & Hpop). rewrite Hpop.
  cbn [Tracker.save_expenses Tracker.expenses Tracker.disk].
  assert (Hlt : (Z.to_nat p < List.length l)%nat) by lia.
  split; [reflexivity|]. split; [now apply length_without|].
  split; intros q Hq.
  - now apply nth_error_without_before.
  - now apply nth_error_without_after.
Qed.

(** ** Facts about text *)

Section TextFacts.
Import Text.

Lemma code_bounds (c : ascii) : 0 <= code c < 256.
Proof.
  unfold code. pose proof (N_ascii_bounded c). lia.
Qed.

Lemma code_inj (a b : ascii) : code a = code b -> a = b.
Proof.
  unfold code. intros H.
  rewrite <- (ascii_N_embedding a), <- (ascii_N_embedding b).
  f_equal. lia.
Qed.

Lemma code_lower_char (c : ascii) :
  code (lower_char c)
  = if (65 <=? code c) && (code c <=? 90) then code c + 32 else code c.
Proof.
  unfold lower_char.
  destruct ((65 <=? code c) && (code c <=? 90)) eqn:H; [|reflexivity].
  apply andb_true_iff in H. destruct H as [H1 H2].
  apply Z.leb_le in H1, H2.
  unfold code at 1. rewrite N_ascii_embedding; lia.
Qed.

Lemma lower_char_same_letter (a b : ascii) :
  lower_char a = lower_char b <-> Spec.same_letterb a b = true.
Proof.
  unfold Spec.same_letterb, Strptime.in_range.
  pose proof (code_bounds a). pose proof (code_bounds b).
  split.
  - intros E. apply (f_equal code) in E.
    rewrite !code_lower_char in E.
    destruct (Ascii.eqb_spec a b) as [|Hne]; [reflexivity|].
    assert (code a <> code b) by (intros Hc; apply Hne, code_inj, Hc).
    simpl.
    destruct (65 <=? code a) eqn:A1; destruct (code a <=? 90) eqn:A2;
      destruct (65 <=? code b) eqn:B1; destruct (code b <=? 90) eqn:B2;
      simpl in *;
      repeat match goal with
        | H : (_ <=? _) = true |- _ => apply Z.leb_le in H
        | H : (_ <=? _) = false |- _ => apply Z.leb_gt in H
        end;
      try lia;
      rewrite ?orb_true_iff, ?Z.eqb_eq; try lia;
      try (destruct (code a =? code b + 32) eqn:Q;
           [reflexivity | apply Z.eqb_neq in Q; lia]).
  - intros E. apply code_inj. rewrite !code_lower_char.
    rewrite !orb_true_iff, !andb_true_iff, !Z.leb_le, !Z.eqb_eq in E.
    destruct E as [[E | E] | E].
    + apply Ascii.eqb_eq in E. subst. reflexivity.
    + destruct E as [[E1 E2] E3].
      destruct (65 <=? code a) eqn:A1; destruct (code a <=? 90) eqn:A2;
        destruct (65 <=? code b) eqn:B1; destruct (code b <=? 90) eqn:B2;
        simpl;
        repeat match goal with
          | H : (_ <=? _) = true |- _ => apply Z.leb_le in H
          | H : (_ <=? _) = false |- _ => apply Z.leb_gt in H
          end; lia.
    + destruct E as [[E1 E2] E3].
      destruct (65 <=? code a) eqn:A1; destruct (code a <=? 90) eqn:A2;
        destruct (65 <=? code b) eqn:B1; destruct (code b <=? 90) eqn:B2;
        simpl;
        repeat match goal with
          | H : (_ <=? _) = true |- _ => apply Z.leb_le in H
          | H : (_ <=? _) = false |- _ => apply Z.leb_gt in H
          end; lia.
Qed.

Lemma lower_eqb_caseless (s t : string) :
  (lower s =? lower t)%string = Spec.caseless_eqb s t.
Proof.
  revert t; induction s as [|a s IH]; intros [|b t]; simpl; try reflexivity.
  rewrite <- IH.
  destruct (Ascii.eqb_spec (lower_char a) (lower_char b)) as [E|E].
  - apply lower_char_same_letter in E. rewrite E. reflexivity.
  - destruct (Spec.same_letterb a b) eqn:Q; [|reflexivity].
    apply lower_char_same_letter in Q. contradiction.
Qed.

End TextFacts.

(** ** Totals of a category and overall *)



(** ** [strip] twice is [strip] once *)

Section StripFacts.
Import Text.
Variable sp : ascii -> bool.

Lemma rstrip_by_idem (s : list ascii) :
  rstrip_by sp (rstrip_by sp s) = rstrip_by sp s.
Proof.
  induction s as [|c t IH]; simpl; [reflexivity|].
  destruct (sp c && is_nil (rstrip_by sp t)) eqn:H; simpl; [reflexivity|].
  rewrite IH, H. reflexivity.
Qed.

Lemma lstrip_rstrip_lstrip (s : list ascii) :
  lstrip_by sp (rstrip_by sp (lstrip_by sp s)) = rstrip_by sp (lstrip_by sp s).
Proof.
  induction s as [|c t IH]; simpl; [reflexivity|].
  destruct (sp c) eqn:H; [exact IH|].
  simpl. rewrite H. simpl. rewrite H. reflexivity.
Qed.

Lemma strip_by_idem (s : list ascii) :
  strip_by sp (strip_by sp s) = strip_by sp s.
Proof.
  unfold strip_by. rewrite lstrip_rstrip_lstrip. apply rstrip_by_idem.
Qed.

End StripFacts.

Lemma strip_idem (s : string) : Text.strip (Text.strip s) = Text.strip s.
Proof.
  unfold Text.strip.
  rewrite list_ascii_of_string_of_list_ascii, strip_by_idem. reflexivity.
Qed.

Lemma eqb_empty_false (s : string) : s <> "" -> (s =? "")%string = false.
Proof. intros H. now apply String.eqb_neq. Qed.

(** ** Saving and loading (interactive tracker) *)

Lemma checked_iff (e : Tracker.expense) :
  Spec.checked e = true <->
  Text.strip (Tracker.category e) = Tracker.category e
  /\ Tracker.category e <> ""
  /\ Strptime.strptime (Tracker.date e) <> None.
Proof.
  unfold Spec.checked.
  rewrite !andb_true_iff, String.eqb_eq, negb_true_iff, String.eqb_neq.
  destruct (Strptime.strptime (Tracker.date e)) as [ymd|]; split.
  - intros [[A B] _]. repeat split; auto. discriminate.
  - intros (A & B & _). auto.
  - intros [_ C]. discriminate.
  - intros (_ & _ & C). congruence.
Qed.

Lemma clean_entry_to_json (e : Tracker.expense) :
  Spec.checked e = true -> Tracker.clean_entry (Tracker.to_json e) = Some e.
Proof.
  intros H. apply checked_iff in H. destruct H as (Hs & Hne & Hd).
  destruct e as [a c d]. simpl in *.
  unfold Tracker.clean_entry, Tracker.to_json. simpl.
  rewrite Hs, (eqb_empty_false c Hne).
  destruct (Strptime.strptime d); [reflexivity | congruence].
Qed.

Lemma load_loop_kept (data : list json) (acc : list Tracker.expense) :
  Tracker.load_loop data acc = acc ++ Spec.kept Tracker.clean_entry data.
Proof.
  revert acc; induction data as [|e data IH]; intros acc;
    cbn [Tracker.load_loop].
  - simpl. now rewrite app_nil_r.
  - unfold Spec.kept. cbn [flat_map]. fold (Spec.kept Tracker.clean_entry data).
    destruct (Tracker.clean_entry e) as [r|]; rewrite IH.
    + now rewrite <- app_assoc.
    + reflexivity.
Qed.

Lemma kept_to_json (l : list Tracker.expense) :
  Forall (fun e => Spec.checked e = true) l ->
  Spec.kept Tracker.clean_entry (map Tracker.to_json l) = l.
Proof.
  unfold Spec.kept.
  induction 1 as [|e l He _ IH]; cbn [map flat_map]; [reflexivity|].
  rewrite (clean_entry_to_json e He), IH. reflexivity.
Qed.



Lemma tracker_load_kept (f : file) :
  Tracker.load_expenses f
  = match Spec.as_list f with
    | Some data => Spec.kept Tracker.clean_entry data
    | None => []
    end.
Proof.
  destruct f as [| |v]; try reflexivity.
  destruct v; try reflexivity.
  simpl. now rewrite load_loop_kept.
Qed.




(** ** Adding a record (interactive tracker) *)




(** ** What the store holds *)


Section Invariant.
Import Text Spec.

Lemma clean_entry_checked (e : json) (r : Tracker.expense) :
  Tracker.clean_entry e = Some r -> good r.
Proof.
  unfold Tracker.clean_entry.
  destruct e as [| | | | |?|d]; try discriminate.
  destruct (Tracker.to_float (dict_get "amount" d)) as [a|]; [|discriminate].
  destruct (dict_get "category" d) as [| | | |c| |]; try discriminate.
  destruct (String.eqb_spec (strip c) "") as [|Hne]; [discriminate|].
  destruct (dict_get "date" d) as [| | | |dt| |]; try discriminate.
  destruct (Strptime.strptime dt) as [ymd|] eqn:Hd; [|discriminate].
  intros [= <-]. apply checked_iff. simpl.
  split; [apply strip_idem|]. split; [exact Hne|]. congruence.
Qed.

Lemma kept_checked (data : list json) :
  Forall good (Spec.kept Tracker.clean_entry data).
Proof.
  unfold Spec.kept. induction data as [|e data IH]; cbn [flat_map].
  - constructor.
  - apply Forall_app. split; [|exact IH].
    destruct (Tracker.clean_entry e) as [r|] eqn:He; constructor.
    + eapply clean_entry_checked, He.
    + constructor.
Qed.

Lemma load_expenses_checked (f : file) : Forall good (Tracker.load_expenses f).
Proof.
  rewrite tracker_load_kept.
  destruct (Spec.as_list f); [apply kept_checked | constructor].
Qed.

Lemma read_expense_checked (today a b c d : string) (r : Tracker.expense) :
  Strptime.strptime today <> None ->
  Tracker.read_expense today a b c d = Ok r -> good r.
Proof.
  intros Ht. unfold Tracker.read_expense.
  destruct (Tracker.prompt_float a) as [x|]; [|discriminate].
  destruct (String.eqb_spec (strip b) "") as [|Hne]; [discriminate|].
  destruct ((lower (strip c) =? "y")%string || (lower (strip c) =? "")%string).
  - intros [= <-]. apply checked_iff. simpl.
    split; [apply strip_idem|]. split; assumption.
  - destruct (Strptime.strptime (strip d)) as [ymd|] eqn:Hd; [|discriminate].
    intros [= <-]. apply checked_iff. simpl.
    split; [apply strip_idem|]. split; [exact Hne|]. congruence.
Qed.

Lemma edited_checked (exp : Tracker.expense) (a b c : string) :
  good exp -> good (Tracker.edited exp a b c).
Proof.
  intros H. apply checked_iff in H. destruct H as (Hs & Hne & Hd).
  apply checked_iff. unfold Tracker.edited. simpl.
  split; [|split].
  - destruct (String.eqb_spec (strip b) ""); [exact Hs | apply strip_idem].
  - destruct (String.eqb_spec (strip b) ""); assumption.
  - destruct (String.eqb_spec (strip c) ""); [exact Hd|].
    destruct (Strptime.strptime (strip c)) eqn:E; congruence.
Qed.

Lemma Forall_set_nth {A} (P : A -> Prop) (l : list A) (i : nat) (x : A) :
  Forall P l -> P x -> Forall P (set_nth l i x).
Proof.
  intros Hl Hx. revert i.
  induction Hl as [|h t Hh Ht IH]; intros [|i]; simpl; constructor; auto.
Qed.

Lemma Forall_without {A} (P : A -> Prop) (l : list A) (i : nat) :
  Forall P l -> Forall P (firstn i l ++ skipn (S i) l).
Proof.
  intros Hl. revert i.
  induction Hl as [|h t Hh Ht IH]; intros [|i]; simpl; try constructor; auto.
Qed.

Lemma Forall_pop {A} (P : A -> Prop) (l l' : list A) (i : Z) (x : A) :
  pop l i = Some (x, l') -> Forall P l -> Forall P l'.
Proof.
  unfold pop. intros H Hl.
  destruct ((0 <=? (if i <? 0 then i + Z.of_nat (List.length l) else i))
            && ((if i <? 0 then i + Z.of_nat (List.length l) else i)
                <? Z.of_nat (List.length l))); [|discriminate].
  destruct (nth_error l _); [|discriminate].
  injection H as _ <-. now apply Forall_without.
Qed.

Lemma sound_write (l : list Tracker.expense) (st : Tracker.store) :
  sound st -> Forall good l ->
  sound (Tracker.save_expenses l
           (Tracker.mkStore l (Tracker.disk st) (Tracker.saved st))).
Proof.
  intros [_ Hs] Hl. split; simpl; [exact Hl|].
  apply Forall_app. split; [exact Hs|]. constructor; [exact Hl | constructor].
Qed.

Lemma sound_start (f : file) : sound (Tracker.start f).
Proof.
  split; simpl; [apply load_expenses_checked | constructor].
Qed.

Lemma sound_run (c : Tracker.command) (st : Tracker.store) :
  Spec.clock_ok c = true -> sound st -> sound (Tracker.run c st).
Proof.
  intros Hc Hst. pose proof Hst as [He _].
  destruct c as [today a b u d | i a b d | i]; simpl in *.
  - unfold Tracker.add_expense.
    destruct (Tracker.read_expense today a b u d) as [r|] eqn:E; [|exact Hst].
    apply sound_write; [exact Hst|].
    apply Forall_app. split; [exact He|].
    constructor; [|constructor].
    eapply read_expense_checked; [|exact E].
    destruct (Strptime.strptime today); congruence.
  - unfold Tracker.edit_expense.
    destruct (is_nil (Tracker.expenses st)); [exact Hst|].
    destruct (IntSyntax.int_of_string (strip i)) as [idx|]; [|exact Hst].
    destruct (idx =? 0); [exact Hst|].
    destruct (negb _); [exact Hst|].
    destruct (nth_error _ _) as [exp|] eqn:E; [|exact Hst].
    apply sound_write; [exact Hst|].
    apply Forall_set_nth; [exact He|].
    apply edited_checked.
    eapply Forall_forall; [exact He|]. eapply nth_error_In, E.
  - unfold Tracker.delete_expense.
    destruct (is_nil (Tracker.expenses st)); [exact Hst|].
    destruct (IntSyntax.int_of_string (strip i)) as [idx|]; [|exact Hst].
    destruct (idx =? 0); [exact Hst|].
    destruct (_ && _); [|exact Hst].
    destruct (pop _ _) as [[x l]|] eqn:E; [|exact Hst].
    apply sound_write; [exact Hst|].
    eapply Forall_pop; [exact E | exact He].
Qed.

Lemma sound_run_all (cs : list Tracker.command) (st : Tracker.store) :
  Forall (fun c => Spec.clock_ok c = true) cs ->
  sound st -> sound (Tracker.run_all cs st).
Proof.
  intros Hcs. revert st.
  induction Hcs as [|c cs Hc _ IH]; intros st Hst; simpl; [exact Hst|].
  apply IH, sound_run; assumption.
Qed.

End Invariant.



(** ** Dates of the shape [YYYY-MM-DD] *)

Section IsoDates.
Import Text Strptime.


Lemma digit_val_range (c : ascii) : is_digit c = true -> 0 <= digit_val c <= 9.
Proof.
  unfold is_digit, digit_val. rewrite andb_true_iff, !Z.leb_le. lia.
Qed.







End IsoDates.

Section IsoStrptime.
Import Text Strptime.

Lemma number_four (a b c d : ascii) :
  Spec.number [a; b; c; d]
  = 1000 * digit_val a + 100 * digit_val b + 10 * digit_val c + digit_val d.
Proof. unfold Spec.number, IntSyntax.value. cbn [fold_left]. lia. Qed.

Lemma number_two (a b : ascii) :
  Spec.number [a; b] = 10 * digit_val a + digit_val b.
Proof. unfold Spec.number, IntSyntax.value. cbn [fold_left]. lia. Qed.




End IsoStrptime.

(** ** Rejecting a date *)





(** ** The order [sorted] compares strings by *)

Section StringOrder.

Lemma ascii_compare_trans (a b c : ascii) :
  Ascii.compare a b = Lt -> Ascii.compare b c = Lt -> Ascii.compare a c = Lt.
Proof.
  unfold Ascii.compare. rewrite !N.compare_lt_iff. apply N.lt_trans.
Qed.

Lemma string_compare_trans (s t u : string) :
  String.compare s t = Lt -> String.compare t u = Lt -> String.compare s u = Lt.
Proof.
  revert t u. induction s as [|a s IH]; intros [|b t] [|c u]; simpl;
    try discriminate; try reflexivity.
  destruct (Ascii.compare a b) eqn:Eab; try discriminate;
    destruct (Ascii.compare b c) eqn:Ebc; try discriminate; intros H1 H2.
  - apply Ascii.compare_eq_iff in Eab, Ebc. subst.
    assert (E : Ascii.compare c c = Eq).
    { unfold Ascii.compare. apply N.compare_refl. }
    rewrite E. eapply IH; eassumption.
  - apply Ascii.compare_eq_iff in Eab. subst. now rewrite Ebc.
  - apply Ascii.compare_eq_iff in Ebc. subst. now rewrite Eab.
  - now rewrite (ascii_compare_trans a b c Eab Ebc).
Qed.

Lemma string_compare_refl (s : string) : String.compare s s = Eq.
Proof.
  induction s as [|a s IH]; simpl; [reflexivity|].
  assert (E : Ascii.compare a a = Eq) by (unfold Ascii.compare; apply N.compare_refl).
  now rewrite E.
Qed.

Lemma leb_lt_or_eq (s t : string) :
  String.leb s t = true -> s = t \/ String.ltb s t = true.
Proof.
  unfold String.leb, String.ltb.
  destruct (String.compare s t) eqn:E; try discriminate; intros _.
  - left. now apply String.compare_eq_iff.
  - now right.
Qed.

Lemma ltb_leb (s t : string) : String.ltb s t = true -> String.leb s t = true.
Proof.
  unfold String.leb, String.ltb.
  destruct (String.compare s t); auto.
Qed.

Lemma ltb_trans (s t u : string) :
  String.ltb s t = true -> String.ltb t u = true -> String.ltb s u = true.
Proof.
  unfold String.ltb.
  destruct (String.compare s t) eqn:E1; try discriminate.
  destruct (String.compare t u) eqn:E2; try discriminate.
  now rewrite (string_compare_trans s t u E1 E2).
Qed.

Lemma leb_trans (s t u : string) :
  String.leb s t = true -> String.leb t u = true -> String.leb s u = true.
Proof.
  intros H1 H2.
  destruct (leb_lt_or_eq s t H1) as [->|L1]; [exact H2|].
  destruct (leb_lt_or_eq t u H2) as [<-|L2]; [exact H1|].
  apply ltb_leb. eapply ltb_trans; eassumption.
Qed.

End StringOrder.

(** ** [sorted] sorts *)

Section SortedFacts.
Import Grouping Spec.

Lemma insert_key_perm (k : string) (l : list string) :
  Permutation (insert_key k l) (k :: l).
Proof.
  induction l as [|h t IH]; simpl; [reflexivity|].
  destruct (String.leb k h); [reflexivity|].
  rewrite IH. apply perm_swap.
Qed.

Lemma sorted_perm (l : list string) : Permutation (sorted l) l.
Proof.
  induction l as [|h t IH]; simpl; [reflexivity|].
  rewrite insert_key_perm. now constructor.
Qed.

Lemma insert_key_hd (k x : string) (l : list string) :
  le_string x k -> HdRel le_string x l -> HdRel le_string x (insert_key k l).
Proof.
  intros Hxk Hl. destruct l as [|h t]; simpl; [now constructor|].
  destruct (String.leb k h); constructor; [exact Hxk|].
  now inversion Hl.
Qed.

Lemma insert_key_sorted (k : string) (l : list string) :
  Sorted le_string l -> Sorted le_string (insert_key k l).
Proof.
  induction 1 as [|h t Ht IH Hh]; simpl; [repeat constructor|].
  destruct (String.leb k h) eqn:E.
  - constructor; [now constructor | now constructor].
  - constructor; [exact IH|].
    apply insert_key_hd; [|exact Hh].
    destruct (String.leb_total k h) as [H|H]; [congruence | exact H].
Qed.

Lemma sorted_sorted (l : list string) : Sorted le_string (sorted l).
Proof.
  induction l as [|h t IH]; simpl; [constructor|].
  now apply insert_key_sorted.
Qed.

Lemma strongly_sorted_strict (l : list string) :
  StronglySorted le_string l -> NoDup l -> StronglySorted lt_string l.
Proof.
  induction 1 as [|h t Ht IH Hh]; intros Hn; constructor.
  - apply IH. now inversion Hn.
  - inversion Hn as [|? ? Hnot _]; subst.
    rewrite Forall_forall in *. intros x Hx.
    destruct (leb_lt_or_eq h x (Hh x Hx)) as [->|L]; [contradiction | exact L].
Qed.

(** [sorted] of strings that are all different is their arrangement in
    strictly ascending order. *)
Lemma sorted_strict (l : list string) :
  NoDup l -> StronglySorted lt_string (sorted l).
Proof.
  intros Hn. apply strongly_sorted_strict.
  - apply Sorted_StronglySorted; [|apply sorted_sorted].
    intros a b c. apply leb_trans.
  - eapply Permutation_NoDup; [|exact Hn].
    symmetry. apply sorted_perm.
Qed.

End SortedFacts.

(** ** Keys in the order they are met *)

Section FirstOccurrences.
Import Spec.

Lemma mem_In (k : string) (ks : list string) : mem k ks = true <-> In k ks.
Proof.
  unfold mem. rewrite existsb_exists. split.
  - intros (x & Hx & E). apply String.eqb_eq in E. now subst.
  - intros H. exists k. split; [exact H | apply String.eqb_refl].
Qed.

Lemma first_occurrences_In (k : string) (ks : list string) :
  In k (first_occurrences ks) <-> In k ks.
Proof.
  induction ks as [|h t IH]; simpl; [tauto|].
  rewrite filter_In, IH, negb_true_iff, String.eqb_neq.
  destruct (string_dec h k) as [->|N]; [tauto|].
  split; [tauto|]. intros [E|H]; [contradiction|]. right. split; [exact H|].
  congruence.
Qed.

Lemma first_occurrences_NoDup (ks : list string) : NoDup (first_occurrences ks).
Proof.
  induction ks as [|h t IH]; simpl; constructor.
  - rewrite filter_In, negb_true_iff, String.eqb_neq. tauto.
  - now apply NoDup_filter.
Qed.

Lemma mem_first_occurrences (k : string) (ks : list string) :
  mem k (first_occurrences ks) = mem k ks.
Proof.
  apply eq_true_iff_eq. rewrite !mem_In. apply first_occurrences_In.
Qed.

Lemma first_occurrences_snoc (ks : list string) (k : string) :
  first_occurrences (ks ++ [k])
  = first_occurrences ks ++ (if mem k ks then [] else [k]).
Proof.
  induction ks as [|h t IH]; simpl; [reflexivity|].
  rewrite IH, filter_app. f_equal. f_equal.
  destruct (String.eqb_spec h k) as [->|N]; simpl.
  - destruct (mem k t); simpl; [reflexivity|].
    now rewrite String.eqb_refl.
  - destruct (mem k t); simpl; [reflexivity|].
    assert (E : (k =? h)%string = false) by (apply String.eqb_neq; congruence).
    now rewrite E.
Qed.

End FirstOccurrences.

(** ** The loop that groups *)

Section GroupingFacts.
Import Grouping Spec.
Context {R num : Type}.
Variable add : num -> num -> num.
Variable zero : num.
Variable amount : R -> num.
Variable key : R -> string.

Lemma keys_set_item (d : dict) (k : string) (v : num) :
  keys (set_item d k v) = keys d ++ (if mem k (keys d) then [] else [k]).
Proof.
  induction d as [|[k' v'] d IH]; simpl; [reflexivity|].
  destruct (String.eqb_spec k' k) as [->|N]; simpl.
  - now rewrite app_nil_r.
  - now rewrite IH.
Qed.

Lemma get_or_set_item (d : dict) (k k0 : string) (v dflt : num) :
  get_or (set_item d k v) k0 dflt
  = if (k =? k0)%string then v else get_or d k0 dflt.
Proof.
  induction d as [|[k' v'] d IH]; simpl.
  - reflexivity.
  - destruct (String.eqb_spec k' k) as [->|N]; simpl.
    + destruct (k =? k0)%string; reflexivity.
    + rewrite IH. destruct (String.eqb_spec k' k0) as [->|N0]; [|reflexivity].
      assert (E : (k =? k0)%string = false) by (apply String.eqb_neq; congruence).
      now rewrite E.
Qed.

Lemma accumulate_snoc (l : list R) (e : R) :
  accumulate add zero amount key (l ++ [e])
  = step add zero amount key (accumulate add zero amount key l) e.
Proof.
  unfold accumulate, accumulate_from. now rewrite fold_left_app.
Qed.

Lemma py_sum_snoc (xs : list num) (x : num) :
  py_sum add zero (xs ++ [x]) = add (py_sum add zero xs) x.
Proof.
  unfold py_sum. now rewrite fold_left_app.
Qed.

(** The keys of the dict are the keys of the records, each once, in the
    order they are first met. *)
Lemma keys_accumulate (l : list R) :
  keys (accumulate add zero amount key l) = first_occurrences (map key l).
Proof.
  induction l as [|e l IH] using rev_ind; [reflexivity|].
  rewrite accumulate_snoc. unfold step.
  rewrite keys_set_item, IH, map_app. simpl.
  now rewrite first_occurrences_snoc, mem_first_occurrences.
Qed.

(** Under a key, the dict holds the sum, from left to right, of the
    amounts of the records with that key. *)
Lemma get_or_accumulate (l : list R) (k : string) :
  get_or (accumulate add zero amount key l) k zero
  = py_sum add zero
      (map amount (filter (fun e => (key e =? k)%string) l)).
Proof.
  induction l as [|e l IH] using rev_ind; [reflexivity|].
  rewrite accumulate_snoc. unfold step.
  rewrite get_or_set_item, filter_app, map_app. simpl.
  destruct (String.eqb_spec (key e) k) as [E|N]; simpl.
  - rewrite py_sum_snoc, <- IH, E. reflexivity.
  - now rewrite app_nil_r.
Qed.

Lemma keys_by_key (d : dict) : map fst (by_key zero d) = sorted (keys d).
Proof.
  unfold by_key. rewrite map_map. simpl. apply map_id.
Qed.

(** Read by ascending key, the groups are the sums of the design. *)
Lemma by_key_accumulate (l : list R) :
  by_key zero (accumulate add zero amount key l)
  = map (fun k =>
           (k, py_sum add zero
                 (map amount (filter (fun e => (key e =? k)%string) l))))
        (sorted (first_occurrences (map key l))).
Proof.
  unfold by_key. rewrite keys_accumulate.
  apply map_ext. intros k. now rewrite get_or_accumulate.
Qed.

End GroupingFacts.

(** ** Monthly totals *)


(** ** The groups and the total *)


Section ExactSums.
Import Grouping Spec.
Context {R num : Type}.
Variable add : num -> num -> num.
Variable zero : num.
Variable amount : R -> num.
Variable key : R -> string.
Hypothesis add_assoc : forall x y z, add x (add y z) = add (add x y) z.
Hypothesis add_comm : forall x y, add x y = add y x.
Hypothesis add_zero_l : forall x, add zero x = x.






Lemma items_of_keys (d : dict) :
  NoDup (keys d) -> map (fun k => (k, get_or d k zero)) (keys d) = d.
Proof.
  induction d as [|[k v] d IH]; simpl; [reflexivity|].
  intros Hn. inversion Hn as [|? ? Hk Hd]; subst.
  rewrite String.eqb_refl. f_equal.
  rewrite <- (IH Hd) at 2. apply map_ext_in.
  intros k' Hk'.
  destruct (String.eqb_spec k k') as [->|N]; [contradiction | reflexivity].
Qed.



End ExactSums.



(** ** More on the pandas variant: finding, sample data, compositions *)

Lemma set_nth_set_nth {A} (l : list A) (i : nat) (x y : A) :
  set_nth (set_nth l i x) i y = set_nth l i y.
Proof.
  revert i; induction l as [|h t IH]; intros [|i]; simpl; try reflexivity.
  now rewrite IH.
Qed.

Lemma pop_last {A} (l : list A) (x : A) :
  pop (l ++ [x]) (Z.of_nat (List.length l)) = Some (x, l).
Proof.
  unfold pop.
  assert (Hlen : List.length (l ++ [x]) = S (List.length l)).
  { rewrite length_app. simpl. lia. }
  rewrite Hlen.
  destruct (Z.of_nat (List.length l) <? 0) eqn:E; [apply Z.ltb_lt in E; lia|].
  assert (Hb : (0 <=? Z.of_nat (List.length l))
               && (Z.of_nat (List.length l)
                   <? Z.of_nat (S (List.length l))) = true).
  { apply andb_true_intro. split; [apply Z.leb_le | apply Z.ltb_lt]; lia. }
  rewrite Hb, Nat2Z.id.
  assert (E1 : nth_error (l ++ [x]) (List.length l) = Some x).
  { rewrite nth_error_app2, Nat.sub_diag by lia. reflexivity. }
  assert (E2 : firstn (List.length l) (l ++ [x]) = l).
  { rewrite firstn_app, Nat.sub_diag, firstn_all. apply app_nil_r. }
  assert (E3 : skipn (S (List.length l)) (l ++ [x]) = []).
  { apply skipn_all2. rewrite length_app. simpl. lia. }
  rewrite E1, E2, E3, app_nil_r. reflexivity.
Qed.

(** X1. [find_expense_index_by_rowid] answers the row id itself exactly
    when the row id is a position of the file's list, and then
    [edit_expense] and [delete_expense] at it return [True]; otherwise it
    answers [None], and they return [False] and leave the file as it is
    (a negative index is never counted from the end). *)
Theorem find_index_agrees (rowid : Z) (date category : string)
  (amount : float) (description : string) (f : file) :
  let n := Z.of_nat (List.length (Enhanced.load_expenses f)) in
  (0 <= rowid < n
   /\ Enhanced.find_expense_index_by_rowid rowid f = Some rowid
   /\ fst (Enhanced.edit_expense rowid date category amount description f)
      = true
   /\ fst (Enhanced.delete_expense rowid f) = true)
  \/ (~ 0 <= rowid < n
      /\ Enhanced.find_expense_index_by_rowid rowid f = None
      /\ Enhanced.edit_expense rowid date category amount description f
         = (false, f)
      /\ Enhanced.delete_expense rowid f = (false, f)).
Proof.
  intros n. subst n.
  unfold Enhanced.find_expense_index_by_rowid, Enhanced.edit_expense,
    Enhanced.delete_expense.
  destruct (Enhanced.in_bounds rowid (Enhanced.load_expenses f)) eqn:Hb.
  - left. apply in_bounds_iff in Hb. split; [exact Hb|].
    destruct (pop_in_bounds _ rowid Hb) as (x & _ & Hpop). rewrite Hpop.
    repeat split.
  - right. split; [|repeat split].
    intros H. apply in_bounds_iff in H. congruence.
Qed.

(** X2. [ensure_sample_data] never returns an empty list, and what it
    returns is what the file holds afterwards: a file whose list is not
    empty is left untouched; any other file (missing, not decodable, not
    a list, an empty list) is overwritten with the four sample records.
    Calling it again changes nothing. *)
Theorem ensure_sample_data_settles (f : file) :
  let l := fst (Enhanced.ensure_sample_data f) in
  let f' := snd (Enhanced.ensure_sample_data f) in
  l <> []
  /\ Enhanced.load_expenses f' = l
  /\ Enhanced.ensure_sample_data f' = (l, f')
  /\ ((Enhanced.load_expenses f = []
       /\ l = Enhanced.sample /\ f' = Enhanced.save_expenses Enhanced.sample)
      \/ (Enhanced.load_expenses f <> [] /\ l = Enhanced.load_expenses f
          /\ f' = f)).
Proof.
  unfold Enhanced.ensure_sample_data.
  destruct (Enhanced.load_expenses f) as [|e l0] eqn:El; simpl.
  - repeat split; [discriminate | now left].
  - rewrite El. simpl. repeat split; [discriminate|].
    right. repeat split. discriminate.
Qed.

(** X3. Adding a record and then deleting the last position gives back
    the list that was there: [delete_expense] returns [True] and the file
    holds the list read before the addition. *)
Theorem add_then_delete_last (date category : string) (amount : float)
  (description : string) (f : file) :
  Enhanced.delete_expense
    (Z.of_nat (List.length (Enhanced.load_expenses f)))
    (Enhanced.add_expense date category amount description f)
  = (true, Enhanced.save_expenses (Enhanced.load_expenses f)).
Proof.
  unfold Enhanced.delete_expense, Enhanced.add_expense.
  rewrite load_save.
  assert (Hb : Enhanced.in_bounds
                 (Z.of_nat (List.length (Enhanced.load_expenses f)))
                 (Enhanced.load_expenses f
                  ++ [Enhanced.record date category amount description])
               = true).
  { apply in_bounds_iff. rewrite length_app. simpl. lia. }
  rewrite Hb, pop_last. reflexivity.
Qed.

(** X4. Of two edits of the same position only the second shows: the
    file is the one the second edit alone would have written (or the
    untouched file, when the position is out of bounds). *)
Theorem edit_twice_keeps_last (index : Z) (d1 c1 : string) (a1 : float)
  (s1 d2 c2 : string) (a2 : float) (s2 : string) (f : file) :
  snd (Enhanced.edit_expense index d2 c2 a2 s2
         (snd (Enhanced.edit_expense index d1 c1 a1 s1 f)))
  = snd (Enhanced.edit_expense index d2 c2 a2 s2 f).
Proof.
  unfold Enhanced.edit_expense.
  destruct (Enhanced.in_bounds index (Enhanced.load_expenses f)) eqn:Hb;
    simpl.
  - assert (Hb' : Enhanced.in_bounds index
                    (set_nth (Enhanced.load_expenses f) (Z.to_nat index)
                       (Enhanced.record d1 c1 a1 s1)) = true).
    { apply in_bounds_iff. rewrite length_set_nth. now apply in_bounds_iff. }
    rewrite Hb'. simpl. now rewrite set_nth_set_nth.
  - rewrite Hb. reflexivity.
Qed.

(** ** More on the interactive tracker: what [add_expense] accepts *)









(** ** More on the interactive tracker: deleting and editing *)

Lemma names_record_dec (a_index : string) (n : nat) :
  match IntSyntax.int_of_string (Text.strip a_index) with
  | Some idx =>
      if (1 <=? idx) && (idx <=? Z.of_nat n)
      then Spec.names_record a_index n
      else ~ Spec.names_record a_index n
  | None => ~ Spec.names_record a_index n
  end.
Proof.
  unfold Spec.names_record.
  destruct (IntSyntax.int_of_string (Text.strip a_index)) as [idx|].
  - destruct ((1 <=? idx) && (idx <=? Z.of_nat n)) eqn:E.
    + apply andb_true_iff in E. rewrite !Z.leb_le in E. eauto.
    + intros (i & [= <-] & H).
      apply andb_false_iff in E. rewrite !Z.leb_gt in E. lia.
  - intros (i & H & _). discriminate.
Qed.

Lemma names_record_nonempty (a_index : string) {A} (l : list A) :
  Spec.names_record a_index (List.length l) -> Text.is_nil l = false.
Proof.
  intros (idx & _ & H). destruct l; [simpl in H; lia | reflexivity].
Qed.

Lemma delete_in_range (a_index : string) (idx : Z) (st : Tracker.store) :
  IntSyntax.int_of_string (Text.strip a_index) = Some idx ->
  1 <= idx <= Z.of_nat (List.length (Tracker.expenses st)) ->
  let l := Tracker.expenses st in
  let st' := Tracker.delete_expense a_index st in
  Tracker.expenses st'
  = firstn (Z.to_nat (idx - 1)) l ++ skipn (S (Z.to_nat (idx - 1))) l
  /\ S (List.length (Tracker.expenses st')) = List.length l
  /\ Tracker.disk st' = Tracker.dump (Tracker.expenses st')
  /\ Tracker.saved st' = Tracker.saved st ++ [Tracker.expenses st'].
Proof.
  intros Hi Hr l st'. subst st'. unfold Tracker.delete_expense.
  fold l. fold l in Hr. clearbody l.
  assert (N : Text.is_nil l = false).
  { destruct l; [simpl in Hr; lia | reflexivity]. }
  assert (E0 : (idx =? 0) = false) by (apply Z.eqb_neq; lia).
  assert (E1 : (1 <=? idx) && (idx <=? Z.of_nat (List.length l)) = true).
  { apply andb_true_intro. split; apply Z.leb_le; lia. }
  rewrite N, Hi, E0, E1.
  assert (Hp : 0 <= idx - 1 < Z.of_nat (List.length l)) by lia.
  destruct (pop_in_bounds l (idx - 1) Hp) as (x & _ & Hpop). rewrite Hpop.
  cbn [Tracker.save_expenses Tracker.expenses Tracker.disk Tracker.saved].
  split; [reflexivity|]. split; [apply length_without; lia|].
  split; reflexivity.
Qed.

(** X8. [delete_expense] removes the record whose number is typed:
    number [idx] from 1 to the length takes out position [idx - 1],
    leaves the others in their order, and the file and the last list
    saved are the list that is left. *)
Theorem delete_expense_removes (a_index : string) (idx : Z)
  (st : Tracker.store) :
  IntSyntax.int_of_string (Text.strip a_index) = Some idx ->
  1 <= idx <= Z.of_nat (List.length (Tracker.expenses st)) ->
  let l := Tracker.expenses st in
  let st' := Tracker.delete_expense a_index st in
  Tracker.expenses st'
  = firstn (Z.to_nat (idx - 1)) l ++ skipn (S (Z.to_nat (idx - 1))) l
  /\ (forall q, (q < Z.to_nat (idx - 1))%nat ->
        nth_error (Tracker.expenses st') q = nth_error l q)
  /\ (forall q, (Z.to_nat (idx - 1) <= q)%nat ->
        nth_error (Tracker.expenses st') q = nth_error l (S q))
  /\ S (List.length (Tracker.expenses st')) = List.length l
  /\ Tracker.disk st' = Tracker.dump (Tracker.expenses st')
  /\ Tracker.saved st' = Tracker.saved st ++ [Tracker.expenses st'].
Proof.
  intros Hi Hr l st'.
  destruct (delete_in_range a_index idx st Hi Hr) as (E & Hl & Hd & Hs).
  fold l st' in E, Hl, Hd, Hs.
  assert (Hlt : (Z.to_nat (idx - 1) < List.length l)%nat) by (subst l; lia).
  split; [exact E|].
  split; [intros q Hq; rewrite E; now apply nth_error_without_before|].
  split; [intros q Hq; rewrite E; now apply nth_error_without_after|].
  repeat split; assumption.
Qed.

Lemma delete_expense_removes_witness :
  let st := Tracker.mkStore
              [Tracker.mkExpense 1%float "A" "2025-01-01";
               Tracker.mkExpense 2%float "B" "2025-01-02";
               Tracker.mkExpense 3%float "C" "2025-01-03"] Absent [] in
  Tracker.expenses (Tracker.delete_expense " 2 " st)
  = [Tracker.mkExpense 1%float "A" "2025-01-01";
     Tracker.mkExpense 3%float "C" "2025-01-03"].
Proof.
  intros st.
  destruct (delete_expense_removes " 2 " 2 st) as [H _].
  - vm_compute. reflexivity.
  - simpl. lia.
  - rewrite H. reflexivity.
Defined.

Lemma delete_expense_unchanged_aux (a_index : string) (st : Tracker.store) :
  ~ Spec.names_record a_index (List.length (Tracker.expenses st)) ->
  Tracker.delete_expense a_index st = st.
Proof.
  pose proof (names_record_dec a_index (List.length (Tracker.expenses st)))
    as D.
  intros N. unfold Tracker.delete_expense.
  destruct (Text.is_nil (Tracker.expenses st)); [reflexivity|].
  destruct (IntSyntax.int_of_string (Text.strip a_index)) as [idx|];
    [|reflexivity].
  destruct (idx =? 0); [reflexivity|].
  destruct ((1 <=? idx)
            && (idx <=? Z.of_nat (List.length (Tracker.expenses st))));
    [contradiction | reflexivity].
Qed.


Lemma set_nth_same {A} (l : list A) (i : nat) (x : A) :
  nth_error l i = Some x -> set_nth l i x = l.
Proof.
  revert i; induction l as [|h t IH]; intros [|i]; simpl; try discriminate.
  - now intros [= ->].
  - intros H. now rewrite (IH i H).
Qed.

Lemma edit_in_range (a_index a_amount a_category a_date : string)
  (idx : Z) (st : Tracker.store) :
  IntSyntax.int_of_string (Text.strip a_index) = Some idx ->
  1 <= idx <= Z.of_nat (List.length (Tracker.expenses st)) ->
  let l := Tracker.expenses st in
  let st' := Tracker.edit_expense a_index a_amount a_category a_date st in
  exists exp,
    nth_error l (Z.to_nat (idx - 1)) = Some exp
    /\ nth_error (Tracker.expenses st') (Z.to_nat (idx - 1))
       = Some (Tracker.edited exp a_amount a_category a_date)
    /\ (forall q, q <> Z.to_nat (idx - 1) ->
          nth_error (Tracker.expenses st') q = nth_error l q)
    /\ List.length (Tracker.expenses st') = List.length l
    /\ Tracker.disk st' = Tracker.dump (Tracker.expenses st')
    /\ Tracker.saved st' = Tracker.saved st ++ [Tracker.expenses st'].
Proof.
  intros Hi Hr l st'. subst st'. unfold Tracker.edit_expense.
  fold l. fold l in Hr. clearbody l.
  assert (N : Text.is_nil l = false).
  { destruct l; [simpl in Hr; lia | reflexivity]. }
  assert (E0 : (idx =? 0) = false) by (apply Z.eqb_neq; lia).
  assert (E1 : (1 <=? idx) && (idx <=? Z.of_nat (List.length l)) = true).
  { apply andb_true_intro. split; apply Z.leb_le; lia. }
  rewrite N, Hi, E0, E1. cbn [negb].
  assert (Hlt : (Z.to_nat (idx - 1) < List.length l)%nat) by lia.
  destruct (nth_error l (Z.to_nat (idx - 1))) as [exp|] eqn:Hx;
    [|apply nth_error_None in Hx; lia].
  exists exp.
  cbn [Tracker.save_expenses Tracker.expenses Tracker.disk Tracker.saved].
  split; [reflexivity|].
  split; [now apply nth_error_set_nth_eq|].
  split; [intros q Hq; now apply nth_error_set_nth_neq|].
  split; [apply length_set_nth|]. split; reflexivity.
Qed.

(** X10. [edit_expense] rewrites the record whose number is typed and no
    other: the list keeps its length, position [idx - 1] holds the record
    with the three optional replacements made, every other position holds
    what it held, and the file and the last list saved are the new
    list. *)
Theorem edit_expense_replaces (a_index a_amount a_category a_date : string)
  (idx : Z) (st : Tracker.store) :
  IntSyntax.int_of_string (Text.strip a_index) = Some idx ->
  1 <= idx <= Z.of_nat (List.length (Tracker.expenses st)) ->
  let l := Tracker.expenses st in
  let st' := Tracker.edit_expense a_index a_amount a_category a_date st in
  exists exp,
    nth_error l (Z.to_nat (idx - 1)) = Some exp
    /\ Tracker.expenses st'
       = set_nth l (Z.to_nat (idx - 1))
           (Tracker.edited exp a_amount a_category a_date)
    /\ nth_error (Tracker.expenses st') (Z.to_nat (idx - 1))
       = Some (Tracker.edited exp a_amount a_category a_date)
    /\ (forall q, q <> Z.to_nat (idx - 1) ->
          nth_error (Tracker.expenses st') q = nth_error l q)
    /\ List.length (Tracker.expenses st') = List.length l
    /\ Tracker.disk st' = Tracker.dump (Tracker.expenses st')
    /\ Tracker.saved st' = Tracker.saved st ++ [Tracker.expenses st'].
Proof.
  intros Hi Hr l st'.
  destruct (edit_in_range a_index a_amount a_category a_date idx st Hi Hr)
    as (exp & Hx & Hn & Ho & Hl & Hd & Hs).
  fold l st' in Hx, Hn, Ho, Hl, Hd, Hs.
  exists exp. split; [exact Hx|].
  split; [|repeat split; assumption].
  apply nth_error_ext. intros q.
  destruct (Nat.eq_dec q (Z.to_nat (idx - 1))) as [->|Hq].
  - rewrite Hn. symmetry. apply nth_error_set_nth_eq.
    apply nth_error_Some. congruence.
  - rewrite (Ho q Hq). symmetry. now apply nth_error_set_nth_neq.
Qed.

Lemma edit_expense_replaces_witness :
  let st := Tracker.mkStore
              [Tracker.mkExpense 1%float "A" "2025-01-01";
               Tracker.mkExpense 2%float "B" "2025-01-02"] Absent [] in
  Tracker.expenses (Tracker.edit_expense "2" "7.5" "" "2025-02-30" st)
  = [Tracker.mkExpense 1%float "A" "2025-01-01";
     Tracker.mkExpense 7.5%float "B" "2025-01-02"].
Proof.
  intros st.
  destruct (edit_expense_replaces "2" "7.5" "" "2025-02-30" 2 st)
    as (exp & Hx & H & _).
  - vm_compute. reflexivity.
  - simpl. lia.
  - rewrite H. injection Hx as <-. vm_compute. reflexivity.
Defined.





Lemma edit_expense_unchanged_aux
  (a_index a_amount a_category a_date : string) (st : Tracker.store) :
  ~ Spec.names_record a_index (List.length (Tracker.expenses st)) ->
  Tracker.edit_expense a_index a_amount a_category a_date st = st.
Proof.
  pose proof (names_record_dec a_index (List.length (Tracker.expenses st)))
    as D.
  intros N. unfold Tracker.edit_expense.
  destruct (Text.is_nil (Tracker.expenses st)); [reflexivity|].
  destruct (IntSyntax.int_of_string (Text.strip a_index)) as [idx|];
    [|reflexivity].
  destruct (idx =? 0); [reflexivity|].
  destruct ((1 <=? idx)
            && (idx <=? Z.of_nat (List.length (Tracker.expenses st))));
    [contradiction | reflexivity].
Qed.


(** ** More on the interactive tracker: the file follows the list *)

Lemma run_cases (c : Tracker.command) (st : Tracker.store) :
  Tracker.run c st = st
  \/ exists l,
       Tracker.run c st
       = Tracker.save_expenses l
           (Tracker.mkStore l (Tracker.disk st) (Tracker.saved st)).
Proof.
  destruct c as [today a b u d | i a b d | i]; simpl.
  - unfold Tracker.add_expense.
    destruct (Tracker.read_expense today a b u d); eauto.
  - unfold Tracker.edit_expense.
    destruct (Text.is_nil _); [now left|].
    destruct (IntSyntax.int_of_string _); [|now left].
    destruct (_ =? 0); [now left|].
    destruct (negb _); [now left|].
    destruct (nth_error _ _); eauto.
  - unfold Tracker.delete_expense.
    destruct (Text.is_nil _); [now left|].
    destruct (IntSyntax.int_of_string _); [|now left].
    destruct (_ =? 0); [now left|].
    destruct (_ && _); [|now left].
    destruct (pop _ _) as [[x l]|]; eauto.
Qed.

Lemma session_invariant (f : file) (cs : list Tracker.command) :
  let st := Tracker.run_all cs (Tracker.start f) in
  (Tracker.saved st = [] /\ Tracker.disk st = f
   /\ Tracker.expenses st = Tracker.load_expenses f)
  \/ (Tracker.disk st = Tracker.dump (Tracker.expenses st)
      /\ exists before,
           Tracker.saved st = before ++ [Tracker.expenses st]).
Proof.
  intros st. subst st.
  assert (H0 : (Tracker.saved (Tracker.start f) = []
                /\ Tracker.disk (Tracker.start f) = f
                /\ Tracker.expenses (Tracker.start f)
                   = Tracker.load_expenses f)
               \/ (Tracker.disk (Tracker.start f)
                   = Tracker.dump (Tracker.expenses (Tracker.start f))
                   /\ exists before,
                        Tracker.saved (Tracker.start f)
                        = before ++ [Tracker.expenses (Tracker.start f)])).
  { left. repeat split. }
  revert H0. generalize (Tracker.start f) as st.
  induction cs as [|c cs IH]; intros st H; simpl; [exact H|].
  apply IH.
  destruct (run_cases c st) as [E | (l & E)]; rewrite E; [exact H|].
  right. simpl. split; [reflexivity|]. eauto.
Qed.

(** X14. Write-through: at any moment of a session the file is the one
    found at the start as long as nothing has been saved, and from the
    first save on it holds exactly the list in memory; that list is the
    last one saved (or the one loaded at the start). *)
Theorem file_follows_list (f : file) (cs : list Tracker.command) :
  let st := Tracker.run_all cs (Tracker.start f) in
  Tracker.disk st
  = match Tracker.saved st with
    | [] => f
    | _ :: _ => Tracker.dump (Tracker.expenses st)
    end
  /\ last (Tracker.saved st) (Tracker.load_expenses f) = Tracker.expenses st.
Proof.
  intros st.
  destruct (session_invariant f cs) as [(Hs & Hd & He) | (Hd & before & Hs)];
    fold st in Hs, Hd; try fold st in He.
  - rewrite Hs. simpl. now split.
  - rewrite Hs, last_last. split; [|reflexivity].
    destruct before; simpl; exact Hd.
Qed.

(** X15. Nothing is lost by stopping and starting again: at any moment
    of a session, loading the file gives the list in memory. *)
Theorem reload_gives_list (f : file) (cs : list Tracker.command) :
  Forall (fun c => Spec.clock_ok c = true) cs ->
  let st := Tracker.run_all cs (Tracker.start f) in
  Tracker.load_expenses (Tracker.disk st) = Tracker.expenses st.
Proof.
  intros Hcs st.
  pose proof (sound_run_all cs (Tracker.start f) Hcs (sound_start f))
    as [Hgood _].
  fold st in Hgood.
  destruct (session_invariant f cs) as [(_ & Hd & He) | (Hd & _)];
    fold st in Hd; try fold st in He.
  - now rewrite Hd, He.
  - rewrite Hd. unfold Tracker.dump.
    rewrite tracker_load_kept. simpl. now apply kept_to_json.
Qed.

Lemma reload_gives_list_witness :
  let cs := [Tracker.Add "2025-11-04" "12.5" " Food " "n" "2025-10-01";
             Tracker.Add "2025-11-04" "3" "Bus" "y" "";
             Tracker.Delete "1"] in
  let st := Tracker.run_all cs (Tracker.start Corrupt) in
  Tracker.load_expenses (Tracker.disk st)
  = [Tracker.mkExpense 3%float "Bus" "2025-11-04"].
Proof.
  intros cs st. subst st.
  rewrite (reload_gives_list Corrupt cs).
  - vm_compute. reflexivity.
  - repeat constructor.
Defined.

(** X16. Loading cleans once and for all: the list [load_expenses] makes
    of a file, written to a file, loads as the same list. *)
Theorem load_dump_load (f : file) :
  Tracker.load_expenses (Tracker.dump (Tracker.load_expenses f))
  = Tracker.load_expenses f.
Proof.
  unfold Tracker.dump. rewrite (tracker_load_kept (Content _)). simpl.
  apply kept_to_json, load_expenses_checked.
Qed.

Lemma clean_entry_record (d c : string) (a : float) (s : string) :
  Tracker.clean_entry (Enhanced.record d c a s) = None.
Proof. reflexivity. Qed.

(** X17. The two variants do not read each other's files: of a file
    written by the pandas variant, whose records carry the keys [Date],
    [Category], [Amount] and [Description], the interactive tracker keeps
    no entry at all. *)
Theorem pandas_file_loads_empty (l : list json) :
  Forall (fun e => exists d c a s, e = Enhanced.record d c a s) l ->
  Tracker.load_expenses (Enhanced.save_expenses l) = [].
Proof.
  intros H. unfold Enhanced.save_expenses.
  rewrite tracker_load_kept. simpl. unfold Spec.kept.
  induction H as [|e l (d & c & a & s & ->) _ IH]; cbn [flat_map];
    [reflexivity|].
  now rewrite clean_entry_record, IH.
Qed.

Lemma pandas_file_loads_empty_witness :
  Tracker.load_expenses (snd (Enhanced.ensure_sample_data Absent)) = [].
Proof.
  apply (pandas_file_loads_empty Enhanced.sample).
  repeat constructor; do 4 eexists; reflexivity.
Defined.

(** X18. One turn of the menu changes the number of records by one at
    most: adding keeps it or raises it by one, editing keeps it, deleting
    keeps it or lowers it by one. *)
Theorem run_changes_length (c : Tracker.command) (st : Tracker.store) :
  let n := List.length (Tracker.expenses st) in
  let n' := List.length (Tracker.expenses (Tracker.run c st)) in
  match c with
  | Tracker.Add _ _ _ _ _ => n' = n \/ n' = S n
  | Tracker.Edit _ _ _ _ => n' = n
  | Tracker.Delete _ => n' = n \/ S n' = n
  end.
Proof.
  destruct c as [today a b u d | i a b d | i]; simpl.
  - unfold Tracker.add_expense.
    destruct (Tracker.read_expense today a b u d); simpl; [|now left].
    right. rewrite length_app. simpl. lia.
  - pose proof (names_record_dec i (List.length (Tracker.expenses st))) as D.
    destruct (IntSyntax.int_of_string (Text.strip i)) as [idx|] eqn:Hi.
    + destruct ((1 <=? idx)
                && (idx <=? Z.of_nat (List.length (Tracker.expenses st))))
        eqn:Hr.
      * destruct D as (idx' & Hi' & Hr'). rewrite Hi in Hi'.
        destruct (edit_in_range i a b d idx st Hi) as (_ & _ & _ & _ & H & _);
          [injection Hi' as ->; exact Hr' | exact H].
      * apply (edit_expense_unchanged_aux i a b d st) in D. now rewrite D.
    + apply (edit_expense_unchanged_aux i a b d st) in D. now rewrite D.
  - pose proof (names_record_dec i (List.length (Tracker.expenses st))) as D.
    destruct (IntSyntax.int_of_string (Text.strip i)) as [idx|] eqn:Hi.
    + destruct ((1 <=? idx)
                && (idx <=? Z.of_nat (List.length (Tracker.expenses st))))
        eqn:Hr.
      * destruct D as (idx' & Hi' & Hr'). rewrite Hi in Hi'.
        destruct (delete_in_range i idx st Hi) as (_ & H & _);
          [injection Hi' as ->; exact Hr' | now right].
      * apply (delete_expense_unchanged_aux i st) in D. rewrite D. now left.
    + apply (delete_expense_unchanged_aux i st) in D. rewrite D. now left.
Qed.

(** ** More on the summaries *)

(** X19. The daily summary has one entry for each date string of a
    record, as it is written; the entry holds the sum, from left to right,
    of the amounts of the records with exactly that string; the entries
    come by strictly ascending string. *)
Theorem daily_summary_groups_by_date (l : list Tracker.expense) :
  Tracker.daily_summary l
  = map (fun k =>
           (k, Grouping.py_sum PrimFloat.add 0%float
                 (map Tracker.amount
                    (filter (fun e => (Tracker.date e =? k)%string) l))))
        (Grouping.sorted (Spec.first_occurrences (map Tracker.date l)))
  /\ StronglySorted Spec.lt_string (map fst (Tracker.daily_summary l))
  /\ (forall k, In k (map fst (Tracker.daily_summary l))
                <-> exists e, In e l /\ Tracker.date e = k).
Proof.
  unfold Tracker.daily_summary.
  split; [apply by_key_accumulate|].
  split.
  { rewrite keys_by_key, keys_accumulate.
    apply sorted_strict, first_occurrences_NoDup. }
  intros k. rewrite keys_by_key, keys_accumulate.
  split.
  - intros H. apply (Permutation_in _ (sorted_perm _)) in H.
    apply first_occurrences_In, in_map_iff in H.
    destruct H as (e & E & He). exists e. auto.
  - intros (e & He & E).
    apply (Permutation_in _ (Permutation_sym (sorted_perm _))).
    apply first_occurrences_In, in_map_iff. exists e. auto.
Qed.

Lemma values_of_keys {num : Type} (zero : num) (d : list (string * num)) :
  NoDup (Grouping.keys d) ->
  Grouping.values d
  = map (fun k => Grouping.get_or d k zero) (Grouping.keys d).
Proof.
  intros Hn. rewrite <- (items_of_keys zero d Hn) at 1.
  unfold Grouping.values. rewrite map_map. reflexivity.
Qed.

(** X20. The pie chart has one slice for each category as it is spelt
    (letter case counts here), in the order the categories are first met;
    the size of a slice is the sum, from left to right, of the amounts of
    the records with exactly that category; labels and sizes go in
    pairs. *)
Theorem pie_chart_slices (l : list Tracker.expense) :
  Tracker.pie_labels l = Spec.first_occurrences (map Tracker.category l)
  /\ NoDup (Tracker.pie_labels l)
  /\ Tracker.pie_sizes l
     = map (fun k =>
              Grouping.py_sum PrimFloat.add 0%float
                (map Tracker.amount
                   (filter (fun e => (Tracker.category e =? k)%string) l)))
           (Tracker.pie_labels l)
  /\ List.length (Tracker.pie_labels l) = List.length (Tracker.pie_sizes l).
Proof.
  unfold Tracker.pie_labels, Tracker.pie_sizes, Tracker.category_totals.
  assert (K : Grouping.keys
                (Grouping.accumulate PrimFloat.add 0%float Tracker.amount
                   Tracker.category l)
              = Spec.first_occurrences (map Tracker.category l))
    by apply keys_accumulate.
  assert (N : NoDup (Grouping.keys
                       (Grouping.accumulate PrimFloat.add 0%float
                          Tracker.amount Tracker.category l))).
  { rewrite K. apply first_occurrences_NoDup. }
  split; [exact K|]. split; [exact N|]. split.
  - rewrite (values_of_keys 0%float _ N). apply map_ext.
    intros k. apply get_or_accumulate.
  - unfold Grouping.keys, Grouping.values. now rewrite !length_map.
Qed.

Lemma combine_map_values {A B} (g : A -> B) (ks : list A) :
  combine ks (map g ks) = map (fun k => (k, g k)) ks.
Proof.
  induction ks as [|k ks IH]; simpl; [reflexivity | now rewrite IH].
Qed.

(** X21. The bar chart plots the table of the monthly summary: its
    months and totals, taken in pairs, are the entries of choice 4 of
    [view_summary], in the same order. *)
Theorem bar_chart_is_monthly_summary (l : list Tracker.expense) :
  combine (Tracker.bar_months l) (Tracker.bar_totals l)
  = Tracker.monthly_summary l
  /\ Tracker.bar_months l = map fst (Tracker.monthly_summary l)
  /\ Tracker.bar_totals l = map snd (Tracker.monthly_summary l).
Proof.
  unfold Tracker.bar_totals, Tracker.monthly_summary, Grouping.by_key.
  fold (Tracker.bar_months l).
  split; [apply combine_map_values|].
  rewrite !map_map. simpl. split; [now rewrite map_id | reflexivity].
Qed.

(** X22. The total of a category does not depend on the letter case of
    the category asked for. *)
Theorem category_total_any_case (l : list Tracker.expense) (q1 q2 : string) :
  Spec.caseless_eqb q1 q2 = true ->
  Tracker.category_total l q1 = Tracker.category_total l q2.
Proof.
  intros H. rewrite <- lower_eqb_caseless in H. apply String.eqb_eq in H.
  unfold Tracker.category_total. now rewrite H.
Qed.

Lemma category_total_any_case_witness :
  Tracker.category_total
    [Tracker.mkExpense 10%float "Food" "2025-10-01";
     Tracker.mkExpense 5%float "FOOD" "2025-10-02";
     Tracker.mkExpense 3%float "Bus" "2025-10-02"] "fOOd"
  = 15%float.
Proof.
  rewrite (category_total_any_case _ "fOOd" "food").
  - vm_compute. reflexivity.
  - vm_compute. reflexivity.
Defined.

(** ** Dates in the order of the calendar *)

Section Chronology.
Import Text.

Lemma ascii_compare_code (a b : ascii) :
  match Ascii.compare a b with
  | Lt => code a < code b
  | Eq => a = b
  | Gt => code b < code a
  end.
Proof.
  destruct (Ascii.compare a b) eqn:E; cbv beta iota.
  - now apply Ascii.compare_eq_iff.
  - unfold Ascii.compare in E. apply N.compare_lt_iff in E.
    unfold code. now apply N2Z.inj_lt.
  - unfold Ascii.compare in E. apply N.compare_gt_iff in E.
    unfold code. now apply N2Z.inj_lt.
Qed.

Ltac compare_digits a b :=
  let H := fresh "H" in
  pose proof (ascii_compare_code a b) as H;
  destruct (Ascii.compare a b); cbv beta iota in H; [subst | |].

(** For two strings of the shape [YYYY-MM-DD], the order of the strings
    is the order of the days they write. *)
Lemma iso_ltb_earlier (s t : string) :
  Spec.iso_shaped s = true -> Spec.iso_shaped t = true ->
  String.ltb s t = true <-> Spec.earlier (Spec.iso_fields s) (Spec.iso_fields t).
Proof.
  unfold Spec.iso_shaped, Spec.iso_fields, String.ltb.
  remember (list_ascii_of_string s) as ls eqn:Els.
  remember (list_ascii_of_string t) as lt eqn:Elt.
  assert (Es : s = string_of_list_ascii ls)
    by (rewrite Els; symmetry; apply string_of_list_ascii_of_string).
  assert (Et : t = string_of_list_ascii lt)
    by (rewrite Elt; symmetry; apply string_of_list_ascii_of_string).
  clear Els Elt. subst s t.
  destruct ls
    as [|a1 [|a2 [|a3 [|a4 [|h1 [|a5 [|a6 [|h2 [|a7 [|a8 [|x l]]]]]]]]]]];
    try discriminate.
  destruct lt
    as [|b1 [|b2 [|b3 [|b4 [|g1 [|b5 [|b6 [|g2 [|b7 [|b8 [|x' l']]]]]]]]]]];
    try discriminate.
  rewrite !andb_true_iff.
  intros [[[[[[[[[A1 A2] A3] A4] H1] A5] A6] H2] A7] A8].
  intros [[[[[[[[[B1 B2] B3] B4] G1] B5] B6] G2] B7] B8].
  apply Ascii.eqb_eq in H1, H2, G1, G2. subst h1 h2 g1 g2.
  apply digit_val_range in A1, A2, A3, A4, A5, A6, A7, A8.
  apply digit_val_range in B1, B2, B3, B4, B5, B6, B7, B8.
  cbn [firstn skipn string_of_list_ascii String.compare].
  rewrite !number_four, !number_two. unfold Spec.earlier.
  unfold digit_val in *.
  assert (D : Ascii.compare "-" "-" = Eq) by reflexivity. rewrite D.
  compare_digits a1 b1; [|split; [intros _; lia | reflexivity]
                         |split; [discriminate | intros; lia]].
  compare_digits a2 b2; [|split; [intros _; lia | reflexivity]
                         |split; [discriminate | intros; lia]].
  compare_digits a3 b3; [|split; [intros _; lia | reflexivity]
                         |split; [discriminate | intros; lia]].
  compare_digits a4 b4; [|split; [intros _; lia | reflexivity]
                         |split; [discriminate | intros; lia]].
  compare_digits a5 b5; [|split; [intros _; lia | reflexivity]
                         |split; [discriminate | intros; lia]].
  compare_digits a6 b6; [|split; [intros _; lia | reflexivity]
                         |split; [discriminate | intros; lia]].
  compare_digits a7 b7; [|split; [intros _; lia | reflexivity]
                         |split; [discriminate | intros; lia]].
  compare_digits a8 b8; [|split; [intros _; lia | reflexivity]
                         |split; [discriminate | intros; lia]].
  split; [discriminate | intros; lia].
Qed.

Lemma StronglySorted_impl_in {A} (P Q : A -> A -> Prop) (l : list A) :
  (forall a b, In a l -> In b l -> P a b -> Q a b) ->
  StronglySorted P l -> StronglySorted Q l.
Proof.
  intros H S. induction S as [|x l S IH Hx]; constructor.
  - apply IH. intros a b Ha Hb. apply H; now right.
  - rewrite Forall_forall in *. intros y Hy.
    apply H; [now left | now right | now apply Hx].
Qed.

End Chronology.

(** X23. When every record's date has the shape [YYYY-MM-DD], the daily
    summary lists the days in the order of the calendar, each day once. *)
Theorem daily_summary_chronological (l : list Tracker.expense) :
  Forall (fun e => Spec.iso_shaped (Tracker.date e) = true) l ->
  StronglySorted
    (fun s t => Spec.earlier (Spec.iso_fields s) (Spec.iso_fields t))
    (map fst (Tracker.daily_summary l)).
Proof.
  intros Hl.
  assert (K : map fst (Tracker.daily_summary l)
              = Grouping.sorted
                  (Spec.first_occurrences (map Tracker.date l))).
  { unfold Tracker.daily_summary. now rewrite keys_by_key, keys_accumulate. }
  assert (Hin : forall k, In k (map fst (Tracker.daily_summary l)) ->
                          Spec.iso_shaped k = true).
  { intros k Hk. rewrite K in Hk.
    apply (Permutation_in _ (sorted_perm _)) in Hk.
    apply first_occurrences_In, in_map_iff in Hk.
    destruct Hk as (e & <- & He).
    rewrite Forall_forall in Hl. now apply Hl. }
  apply (StronglySorted_impl_in Spec.lt_string).
  - intros a b Ha Hb Hab. apply iso_ltb_earlier; auto.
  - rewrite K. apply sorted_strict, first_occurrences_NoDup.
Qed.

Lemma daily_summary_chronological_witness :
  map fst
    (Tracker.daily_summary
       [Tracker.mkExpense 5%float "A" "2025-10-05";
        Tracker.mkExpense 2%float "B" "2024-12-31";
        Tracker.mkExpense 1%float "C" "2025-10-05";
        Tracker.mkExpense 4%float "D" "2025-02-01"])
  = ["2024-12-31"; "2025-02-01"; "2025-10-05"]
  /\ StronglySorted
       (fun s t => Spec.earlier (Spec.iso_fields s) (Spec.iso_fields t))
       ["2024-12-31"; "2025-02-01"; "2025-10-05"].
Proof.
  split; [vm_compute; reflexivity|].
  apply (daily_summary_chronological
           [Tracker.mkExpense 5%float "A" "2025-10-05";
            Tracker.mkExpense 2%float "B" "2024-12-31";
            Tracker.mkExpense 1%float "C" "2025-10-05";
            Tracker.mkExpense 4%float "D" "2025-02-01"]).
  repeat constructor.
Defined.

(** ** Dates with one-digit months and days *)




(** ** Charts of a list that is not empty *)

(** X25. [show_visual_summary] returns early on an empty list, so when
    it comes to plot there is something to plot: for a list that is not
    empty neither the sizes of the pie chart nor the totals of the bar
    chart are empty (the "Nothing to plot." branches are never taken). *)
Theorem charts_have_data (l : list Tracker.expense) :
  l <> [] ->
  Tracker.pie_sizes l <> [] /\ Tracker.bar_totals l <> [].
Proof.
  intros Hl. destruct l as [|e l]; [contradiction|].
  split.
  - unfold Tracker.pie_sizes, Tracker.category_totals.
    intros H. apply (f_equal (@List.length _)) in H.
    unfold Grouping.values in H. rewrite length_map in H.
    rewrite <- (length_map fst) in H.
    change (map fst ?d) with (Grouping.keys d) in H.
    rewrite keys_accumulate in H. discriminate H.
  - unfold Tracker.bar_totals, Tracker.bar_months.
    intros H. apply (f_equal (@List.length _)) in H.
    rewrite length_map in H.
    rewrite (Permutation_length (sorted_perm _)), keys_accumulate in H.
    discriminate H.
Qed.

Lemma charts_have_data_witness :
  Tracker.pie_sizes [Tracker.mkExpense 2%float "A" "2025-01-01"] <> []
  /\ Tracker.bar_totals [Tracker.mkExpense 2%float "A" "2025-01-01"] <> [].
Proof.
  apply (charts_have_data [Tracker.mkExpense 2%float "A" "2025-01-01"]).
  discriminate.
Defined.
